(** * Access layer of the agent platform: tenant-scoped store and message relay

    Shallow embedding of [agents/shared/database.py] and
    [agents/shared/claude_client.py].  Both files are thin wrappers around an
    external library (psycopg2, boto3).  The wrappers are embedded as
    computations in a state-and-exception monad; the libraries are interfaces
    (type classes) whose every interaction is recorded, with its outcome, in a
    trace.  The properties below are statements about those traces. *)

From Stdlib Require Import String Ascii List ZArith Bool Lia DecimalString.
Import ListNotations.
Local Open Scope string_scope.

(** ** Python values and exceptions *)

(** The values that cross the two library boundaries: query parameters, result
    cells and JSON documents.  A [dict] keeps its insertion order, as in
    Python, so it is an association list. *)
#[local] Unset Elimination Schemes.
Inductive pyval : Type :=
| PNone
| PBool (b : bool)
| PInt (z : Z)
| PFloat (repr : string)
| PStr (s : string)
| PList (l : list pyval)
| PDict (d : list (string * pyval)).
#[local] Set Elimination Schemes.

(** An exception object: its class and what [str(e)] prints. *)
Record exn : Type := Exn { exn_class : string; exn_str : string }.

Inductive outcome (A : Type) : Type :=
| Returned (a : A)
| Raised (e : exn).
Arguments Returned {A} a.
Arguments Raised {A} e.

Definition AttributeError (msg : string) : exn := Exn "AttributeError" msg.
Definition KeyError (msg : string) : exn := Exn "KeyError" msg.
Definition IndexError (msg : string) : exn := Exn "IndexError" msg.
Definition TypeError (msg : string) : exn := Exn "TypeError" msg.

(** Truthiness of an [Optional[str]]: [None] and [''] are both falsy. *)
Definition truthy_str (o : option string) : bool :=
  match o with
  | None => false
  | Some s => negb (s =? "")
  end.

(** Truthiness of an optional sequence: [None] and the empty sequence are
    both falsy. *)
Definition truthy_seq {A : Type} (o : option (list A)) : bool :=
  match o with
  | Some (_ :: _) => true
  | _ => false
  end.

(** What an f-string shows for an [Optional[str]]. *)
Definition format_opt (o : option string) : string :=
  match o with
  | None => "None"
  | Some s => s
  end.

Definition pyval_of_opt (o : option string) : pyval :=
  match o with
  | None => PNone
  | Some s => PStr s
  end.

(** *** Dictionaries and subscription *)

Fixpoint dict_get (d : list (string * pyval)) (k : string) : option pyval :=
  match d with
  | [] => None
  | (k', v) :: d' => if k' =? k then Some v else dict_get d' k
  end.

(** [d[k] = v]: replaces the value of an existing key in place, appends a new
    key at the end. *)
Fixpoint dict_set (d : list (string * pyval)) (k : string) (v : pyval)
  : list (string * pyval) :=
  match d with
  | [] => [(k, v)]
  | (k', v') :: d' =>
      if k' =? k then (k, v) :: d' else (k', v') :: dict_set d' k v
  end.

Definition dict_keys (d : list (string * pyval)) : list string := map fst d.

(** The subscripts the code uses: a string key or an integer index. *)
Inductive key : Type :=
| KStr (s : string)
| KInt (i : Z).

Definition type_name (v : pyval) : string :=
  match v with
  | PNone => "NoneType"
  | PBool _ => "bool"
  | PInt _ => "int"
  | PFloat _ => "float"
  | PStr _ => "str"
  | PList _ => "list"
  | PDict _ => "dict"
  end.

(** Sequence indexing: a negative index counts from the end. *)
Definition seq_index {A : Type} (l : list A) (i : Z) : option A :=
  let n := Z.of_nat (length l) in
  let j := if (i <? 0)%Z then (i + n)%Z else i in
  if ((0 <=? j) && (j <? n))%Z then nth_error l (Z.to_nat j) else None.

Definition repr_str (s : string) : string := "'" ++ s ++ "'".

(** [v[k]] on the values [json.loads] produces (the keys of a decoded object
    are strings, so an integer is never among them). *)
Definition subscript (v : pyval) (k : key) : outcome pyval :=
  match v, k with
  | PDict d, KStr s =>
      match dict_get d s with
      | Some x => Returned x
      | None => Raised (KeyError (repr_str s))
      end
  | PDict _, KInt i => Raised (KeyError (NilZero.string_of_int (Z.to_int i)))
  | PList l, KInt i =>
      match seq_index l i with
      | Some x => Returned x
      | None => Raised (IndexError "list index out of range")
      end
  | PList _, KStr _ =>
      Raised (TypeError "list indices must be integers or slices, not str")
  | PStr s, KInt i =>
      match seq_index (list_ascii_of_string s) i with
      | Some a => Returned (PStr (String a ""))
      | None => Raised (IndexError "string index out of range")
      end
  | PStr _, KStr _ => Raised (TypeError "string indices must be integers")
  | _, _ =>
      Raised (TypeError (repr_str (type_name v) ++ " object is not subscriptable"))
  end.

(** ** The outside world

    The process environment ([os.getenv]), the state of the external library
    and the trace of everything the program did to it. *)
Record world (D Ev : Type) : Type := World {
  environ : string -> option string;
  driver : D;
  trace : list Ev
}.
Arguments World {D Ev} _ _ _.
Arguments environ {D Ev} _ _.
Arguments driver {D Ev} _.
Arguments trace {D Ev} _.

(** ** State-and-exception monad *)

Section Monad.
Context {S : Type}.

Definition M (A : Type) : Type := S -> outcome A * S.

Definition ret {A} (a : A) : M A := fun s => (Returned a, s).

Definition bind {A B} (m : M A) (k : A -> M B) : M B :=
  fun s =>
    match m s with
    | (Returned a, s') => k a s'
    | (Raised e, s') => (Raised e, s')
    end.

Definition raise {A} (e : exn) : M A := fun s => (Raised e, s).

(** A pure step that may raise. *)
Definition lift {A} (r : outcome A) : M A := fun s => (r, s).

Definition gets {A} (f : S -> A) : M A := fun s => (Returned (f s), s).

Definition modify (f : S -> S) : M unit := fun s => (Returned tt, f s).

(** [try: m  except Exception as e: h e] *)
Definition try_except {A} (m : M A) (h : exn -> M A) : M A :=
  fun s =>
    match m s with
    | (Returned a, s') => (Returned a, s')
    | (Raised e, s') => h e s'
    end.

(** [try: m  finally: f]; an exception of [f] replaces the outcome of
    [m]. *)
Definition try_finally {A} (m : M A) (f : M unit) : M A :=
  fun s =>
    let (r, s') := m s in
    match f s' with
    | (Returned _, s'') => (r, s'')
    | (Raised e, s'') => (Raised e, s'')
    end.

(** [with mgr as r: body].  [enter] evaluates the manager expression and
    calls its [__enter__]; [exit] is its [__exit__], which here always
    returns [None], so an exception of the body is never suppressed.
    [__exit__] runs on every way out of the body, and not at all when
    [enter] raises. *)
Definition with_ {R A} (enter : M R) (exit : R -> M unit) (body : R -> M A) : M A :=
  bind enter (fun r => try_finally (body r) (exit r)).
End Monad.

Arguments M : clear implicits.

Declare Scope py_scope.
Delimit Scope py_scope with py.
Notation "x <- m ;; k" := (bind m (fun x => k))
  (at level 61, m at next level, right associativity) : py_scope.
Notation "m ;; k" := (bind m (fun _ => k))
  (at level 61, right associativity) : py_scope.
Local Open Scope py_scope.

(** The events a computation added to a trace. *)
Definition new_events {Ev : Type} (before after : list Ev) : list Ev :=
  skipn (length before) after.

(** ** Tenant-scoped store: [agents/shared/database.py] *)

Module Database.

Definition handle : Type := nat.

(** A cursor object remembers the connection it was opened on. *)
Record cursor : Type := Cursor { cursor_connection : handle; cursor_id : nat }.

(** A [RealDictRow]: column name to value, in column order. *)
Definition row : Type := list (string * pyval).

Inductive cursor_factory : Type := DefaultCursor | RealDictCursor.

(** The keyword arguments of [psycopg2.connect]. *)
Record conn_args : Type := ConnArgs {
  arg_host : option string;
  arg_port : pyval;
  arg_dbname : option string;
  arg_user : option string;
  arg_password : option string;
  arg_cursor_factory : cursor_factory
}.

(** The part of psycopg2 the module uses.  Every operation may raise.
    [pg_description] is the [description] attribute of a cursor: [None]
    after a statement without a result set, otherwise the columns of the
    result set.  The two laws are psycopg2's contract for [close]: it marks
    the connection closed, and on a closed connection it does nothing. *)
Class Psycopg2 (D : Type) : Type := {
  pg_connect : conn_args -> D -> outcome handle * D;
  pg_cursor : handle -> D -> outcome nat * D;
  pg_execute : cursor -> string -> option (list pyval) -> D -> outcome unit * D;
  pg_description : cursor -> D -> option (list string);
  pg_fetchall : cursor -> D -> outcome (list row) * D;
  pg_cursor_close : cursor -> D -> outcome unit * D;
  pg_commit : handle -> D -> outcome unit * D;
  pg_close : handle -> D -> outcome unit * D;
  pg_closed : handle -> D -> bool;
  pg_close_closes : forall h d, pg_closed h (snd (pg_close h d)) = true;
  pg_close_idempotent :
    forall h d, pg_closed h d = true -> pg_close h d = (Returned tt, d)
}.

(** One entry per interaction with psycopg2 or with standard output. *)
Inductive event : Type :=
| EvConnect (args : conn_args) (r : outcome handle)
| EvCursor (h : handle) (r : outcome cursor)
| EvExecute (c : cursor) (query : string) (params : option (list pyval))
            (r : outcome unit)
| EvDescription (c : cursor) (d : option (list string))
| EvFetchall (c : cursor) (r : outcome (list row))
| EvCursorClose (c : cursor) (r : outcome unit)
| EvCommit (h : handle) (r : outcome unit)
| EvClose (h : handle) (r : outcome unit)
| EvPrint (line : string).

Definition SET_TENANT : string := "SET app.tenant_id = %s".

Section Store.
Context {D : Type} `{PG : Psycopg2 D}.

(** A [Database] object ([self]) together with the world it lives in. *)
Record state : Type := State {
  tenant_id : option string;
  connection : option handle;
  outside : world D event
}.

Definition set_connection (c : option handle) (s : state) : state :=
  State (tenant_id s) c (outside s).

Definition set_outside (w : world D event) (s : state) : state :=
  State (tenant_id s) (connection s) w.

Definition log (ev : event) (s : state) : state :=
  set_outside
    (World (environ (outside s)) (driver (outside s)) (trace (outside s) ++ [ev]))
    s.

(** A call into the library: run it on the driver state, record it. *)
Definition call {A} (op : D -> outcome A * D) (ev : outcome A -> event)
  : M state A :=
  fun s =>
    let (r, d') := op (driver (outside s)) in
    (r, log (ev r)
          (set_outside (World (environ (outside s)) d' (trace (outside s))) s)).

Definition print (line : string) : M state unit := modify (log (EvPrint line)).

Definition getenv (name : string) : M state (option string) :=
  gets (fun s => environ (outside s) name).

(** [os.getenv(name, default)] with a non-string default. *)
Definition getenv_default (name : string) (default : pyval) : M state pyval :=
  gets (fun s =>
          match environ (outside s) name with
          | Some v => PStr v
          | None => default
          end).

Definition psycopg2_connect (args : conn_args) : M state handle :=
  call (pg_connect args) (EvConnect args).

(** [self.connection.<attr>]: on [None] the attribute lookup raises. *)
Definition self_connection (attr : string) : M state handle :=
  fun s =>
    match connection s with
    | Some h => (Returned h, s)
    | None =>
        (Raised (AttributeError
                   ("'NoneType' object has no attribute '" ++ attr ++ "'")), s)
    end.

Definition connection_cursor (h : handle) : M state cursor :=
  call (fun d =>
          match pg_cursor h d with
          | (Returned n, d') => (Returned (Cursor h n), d')
          | (Raised e, d') => (Raised e, d')
          end)
       (EvCursor h).

Definition cursor_execute (c : cursor) (query : string)
           (params : option (list pyval)) : M state unit :=
  call (pg_execute c query params) (EvExecute c query params).

Definition cursor_description (c : cursor) : M state (option (list string)) :=
  fun s =>
    let d := pg_description c (driver (outside s)) in
    (Returned d, log (EvDescription c d) s).

Definition cursor_fetchall (c : cursor) : M state (list row) :=
  call (pg_fetchall c) (EvFetchall c).

Definition cursor_close (c : cursor) : M state unit :=
  call (pg_cursor_close c) (EvCursorClose c).

Definition connection_commit (h : handle) : M state unit :=
  call (pg_commit h) (EvCommit h).

Definition connection_close (h : handle) : M state unit :=
  call (pg_close h) (EvClose h).

(** [Database(tenant_id)] *)
Definition __init__ (tenant : option string) (w : world D event) : state :=
  State tenant None w.

(** [Database.connect].  [return self] hands back the object the state
    holds, so the computation returns [tt]. *)
Definition connect : M state unit :=
  try_except
    (host <- getenv "DB_HOST" ;;
     port <- getenv_default "DB_PORT" (PInt 5432) ;;
     dbname <- getenv "DB_NAME" ;;
     user <- getenv "DB_USER" ;;
     password <- getenv "DB_PASSWORD" ;;
     conn <- psycopg2_connect
               (ConnArgs host port dbname user password RealDictCursor) ;;
     modify (set_connection (Some conn)) ;;
     tenant <- gets tenant_id ;;
     (if truthy_str tenant then
        with_ (h <- self_connection "cursor" ;; connection_cursor h)
              cursor_close
              (fun cur =>
                 tenant' <- gets tenant_id ;;
                 cursor_execute cur SET_TENANT (Some [pyval_of_opt tenant']))
      else ret tt) ;;
     name <- getenv "DB_NAME" ;;
     print ("✅ Connected to database: " ++ format_opt name) ;;
     ret tt)
    (fun e =>
       print ("❌ Database connection failed: " ++ exn_str e) ;;
       raise e).

(** [Database.execute] *)
Definition execute (query : string) (params : option (list pyval))
  : M state (list row) :=
  with_ (h <- self_connection "cursor" ;; connection_cursor h)
        cursor_close
        (fun cur =>
           cursor_execute cur query params ;;
           description <- cursor_description cur ;;
           if truthy_seq description then
             cursor_fetchall cur
           else
             (h <- self_connection "commit" ;;
              connection_commit h ;;
              ret [])).

(** [Database.close].  A connection object is always truthy, so the test
    is a test against [None]. *)
Definition close : M state unit :=
  c <- gets connection ;;
  match c with
  | Some h =>
      connection_close h ;;
      print "✅ Database connection closed"
  | None => ret tt
  end.

Definition __enter__ : M state unit := connect.

Definition __exit__ : M state unit := close.

(** [with Database(tenant) as db: body] *)
Definition scoped {A} (tenant : option string) (body : M state A)
           (w : world D event) : outcome A * state :=
  with_ __enter__ (fun _ => __exit__) (fun _ => body) (__init__ tenant w).

End Store.

Arguments state : clear implicits.

(** *** What a trace says *)

(** The statements handed to [cursor.execute]: the text and, apart from it,
    the parameter tuple. *)
Fixpoint statements (evs : list event) : list (string * option (list pyval)) :=
  match evs with
  | [] => []
  | EvExecute _ query params _ :: evs' => (query, params) :: statements evs'
  | _ :: evs' => statements evs'
  end.

(** The exception with which a library call ended, if it raised. *)
Definition raised_by (ev : event) : option exn :=
  match ev with
  | EvConnect _ (Raised e) | EvCursor _ (Raised e) | EvExecute _ _ _ (Raised e)
  | EvFetchall _ (Raised e) | EvCursorClose _ (Raised e)
  | EvCommit _ (Raised e) | EvClose _ (Raised e) => Some e
  | _ => None
  end.

(** The server side of the session variable [app.tenant_id] of connection
    [h]: it holds the parameter of the last tagging statement that succeeded
    on a cursor of [h], and nothing before the first one. *)
Definition tag_after (h : handle) (tag : option string) (ev : event)
  : option string :=
  match ev with
  | EvExecute c query (Some [PStr t]) (Returned _) =>
      if (cursor_connection c =? h)%nat && (query =? SET_TENANT) then Some t
      else tag
  | _ => tag
  end.

Definition session_tag (h : handle) (evs : list event) : option string :=
  fold_left (tag_after h) evs None.

(** Every connection obtained in [evs] was also closed in [evs]. *)
Definition discarded (evs : list event) : Prop :=
  forall args h, In (EvConnect args (Returned h)) evs ->
                 exists r, In (EvClose h r) evs.

Definition no_commit (evs : list event) : Prop :=
  forall h r, ~ In (EvCommit h r) evs.

Section Contracts.
Context {D : Type} `{PG : Psycopg2 D}.

Definition events_of (s s' : state D) : list event :=
  new_events (trace (outside s)) (trace (outside s')).

(** Opening with tenant [tenant] issues exactly one statement, the tagging
    statement with [tenant] as its parameter, and the session tag read right
    after is [tenant]. *)
Definition tags_session (tenant : string) (w : world D event) : Prop :=
  forall s', connect (__init__ (Some tenant) w) = (Returned tt, s') ->
    exists h,
      connection s' = Some h /\
      statements (events_of (__init__ (Some tenant) w) s')
        = [(SET_TENANT, Some [PStr tenant])] /\
      session_tag h (events_of (__init__ (Some tenant) w) s') = Some tenant.

(** Under scoped acquisition every connection that was obtained has been
    closed when the statement ends. *)
Definition always_released {A : Type} (tenant : option string)
           (body : M (state D) A) (w : world D event) : Prop :=
  discarded (events_of (__init__ tenant w) (snd (scoped tenant body w))).

(** A failed open raises [ConnectionError] and leaves no connection behind. *)
Definition fails_cleanly (tenant : option string) (w : world D event) : Prop :=
  forall e s', connect (__init__ tenant w) = (Raised e, s') ->
    exn_class e = "ConnectionError" /\
    discarded (events_of (__init__ tenant w) s').

(** What [execute] returned, against what the cursor reported.  [result_set]
    says which column lists count as a result set. *)
Definition execute_contract (result_set : list string -> Prop)
           (query : string) (params : option (list pyval)) (s : state D) : Prop :=
  forall rows s', execute query params s = (Returned rows, s') ->
    exists c d,
      In (EvDescription c d) (events_of s s') /\
      match d with
      | Some columns =>
          result_set columns ->
          In (EvFetchall c (Returned rows)) (events_of s s') /\
          no_commit (events_of s s')
      | None =>
          rows = [] /\
          exists h, connection s = Some h /\
                    In (EvCommit h (Returned tt)) (events_of s s')
      end.

End Contracts.

(** *** A scripted psycopg2

    A stand-in for the library, of the kind a unit test of the module would
    use: the handshake answers [mock_handshake], a statement is answered by
    [mock_reply] (an error, or the description and the rows of its result),
    and everything else succeeds. *)
Record pg_mock : Type := PgMock {
  mock_handshake : outcome handle;
  mock_reply : string -> outcome (option (list string) * list row);
  mock_description : option (list string);
  mock_rows : list row;
  mock_closed : list handle
}.

Definition InterfaceError (msg : string) : exn := Exn "InterfaceError" msg.

Definition is_closed (h : handle) (d : pg_mock) : bool :=
  existsb (Nat.eqb h) (mock_closed d).

Definition mock_cursor (h : handle) (d : pg_mock) : outcome nat * pg_mock :=
  if is_closed h d then (Raised (InterfaceError "connection already closed"), d)
  else (Returned 0, d).

Definition mock_execute (c : cursor) (query : string)
           (params : option (list pyval)) (d : pg_mock) : outcome unit * pg_mock :=
  match mock_reply d query with
  | Returned (description, rows) =>
      (Returned tt,
       PgMock (mock_handshake d) (mock_reply d) description rows (mock_closed d))
  | Raised e => (Raised e, d)
  end.

Definition mock_close (h : handle) (d : pg_mock) : outcome unit * pg_mock :=
  if is_closed h d then (Returned tt, d)
  else (Returned tt,
        PgMock (mock_handshake d) (mock_reply d) (mock_description d)
               (mock_rows d) (h :: mock_closed d)).

Lemma mock_close_closes (h : handle) (d : pg_mock) :
  is_closed h (snd (mock_close h d)) = true.
Proof.
  unfold mock_close. destruct (is_closed h d) eqn:E; simpl; [exact E|].
  unfold is_closed. simpl. now rewrite Nat.eqb_refl.
Qed.

Lemma mock_close_idempotent (h : handle) (d : pg_mock) :
  is_closed h d = true -> mock_close h d = (Returned tt, d).
Proof. intros E. unfold mock_close. now rewrite E. Qed.

#[export] Instance mock_psycopg2 : Psycopg2 pg_mock := {|
  pg_connect := fun _ d => (mock_handshake d, d);
  pg_cursor := mock_cursor;
  pg_execute := mock_execute;
  pg_description := fun _ d => mock_description d;
  pg_fetchall := fun _ d => (Returned (mock_rows d), d);
  pg_cursor_close := fun _ d => (Returned tt, d);
  pg_commit := fun _ d => (Returned tt, d);
  pg_close := mock_close;
  pg_closed := is_closed;
  pg_close_closes := mock_close_closes;
  pg_close_idempotent := mock_close_idempotent
|}.

(** The answers of a small test database. *)
Definition canned (query : string) : outcome (option (list string) * list row) :=
  if query =? SET_TENANT then Returned (None, [])
  else if query =? "SELECT 1" then
    Returned (Some ["?column?"], [[("?column?", PInt 1)]])
  else if query =? "SELECT version()" then
    Returned (Some ["version"], [[("version", PStr "PostgreSQL 16.2")]])
  else if query =? "SELECT" then Returned (Some [], [[]])
  else if query =? "DELETE FROM notes WHERE id = %s" then Returned (None, [])
  else Raised (Exn "ProgrammingError" "syntax error").

(** The same database behind a link that drops at the tagging statement. *)
Definition dropping (query : string) : outcome (option (list string) * list row) :=
  if query =? SET_TENANT then
    Raised (Exn "OperationalError" "server closed the connection unexpectedly")
  else canned query.

Definition test_environ (name : string) : option string :=
  if name =? "DB_HOST" then Some "localhost"
  else if name =? "DB_NAME" then Some "agents"
  else if name =? "DB_USER" then Some "butler"
  else if name =? "DB_PASSWORD" then Some "secret"
  else None.

Definition test_world : world pg_mock event :=
  World test_environ (PgMock (Returned 7) canned None [] []) [].

Definition dropping_world : world pg_mock event :=
  World test_environ (PgMock (Returned 7) dropping None [] []) [].

Definition unreachable_world : world pg_mock event :=
  World test_environ
        (PgMock (Raised (Exn "OperationalError" "could not connect to server"))
                canned None [] [])
        [].

(** The object of the health check, opened on the test database. *)
Definition opened : state pg_mock :=
  snd (connect (__init__ (Some "customer-001") test_world)).

End Database.

(** ** Message relay client: [agents/shared/claude_client.py] *)

Module ClaudeClient.

Definition bedrock_client : Type := nat.

(** The dictionary [invoke_model] returns; its ['body'] is a stream. *)
Definition response : Type := nat.

(** The part of boto3 the module uses. *)
Class Bedrock (B : Type) : Type := {
  boto3_client : string -> string -> B -> outcome bedrock_client * B;
  invoke_model : bedrock_client -> string -> string -> B -> outcome response * B;
  body_read : response -> B -> outcome string * B
}.

(** The standard [json] module. *)
Class Json : Type := {
  json_dumps : pyval -> string;
  json_loads : string -> outcome pyval
}.

Inductive event : Type :=
| EvClient (service region : string) (r : outcome bedrock_client)
| EvInvokeModel (c : bedrock_client) (modelId body : string)
                (r : outcome response)
| EvRead (resp : response) (r : outcome string)
| EvPrint (line : string).

(** A [ClaudeClient] object.  No method changes it after [__init__]. *)
Record self : Type := Self { client : bedrock_client; model_id : string }.

Definition DEFAULT_MAX_TOKENS : Z := 1024.

(** The single-turn message sequence of the specification: one message, of
    role user, with the text as content. *)
Definition single_turn (user_text : string) : list pyval :=
  [PDict [("role", PStr "user"); ("content", PStr user_text)]].

(** The text field of the first content block of a decoded response, when the
    response has that shape: an object whose [content] is a list that starts
    with an object having a [text]. *)
Definition first_block_text (body : pyval) : option pyval :=
  match body with
  | PDict d =>
      match dict_get d "content" with
      | Some (PList (PDict block :: _)) => dict_get block "text"
      | _ => None
      end
  | _ => None
  end.

(** The three subscriptions of [send_message], [response_body['content'][0]['text']],
    one after the other. *)
Definition text_of (response_body : pyval) : outcome pyval :=
  match subscript response_body (KStr "content") with
  | Returned content =>
      match subscript content (KInt 0) with
      | Returned block => subscript block (KStr "text")
      | Raised e => Raised e
      end
  | Raised e => Raised e
  end.

(** The body of [request_body] in [send_message]. *)
Definition request_body (messages : list pyval) (system : option string)
           (max_tokens : Z) : list (string * pyval) :=
  let request_body :=
    [("anthropic_version", PStr "bedrock-2023-05-31");
     ("max_tokens", PInt max_tokens);
     ("messages", PList messages)] in
  if truthy_str system then dict_set request_body "system" (pyval_of_opt system)
  else request_body.

Section Relay.
Context {B : Type} `{BR : Bedrock B} `{JS : Json}.

Definition state : Type := world B event.

Definition log (ev : event) (w : state) : state :=
  World (environ w) (driver w) (trace w ++ [ev]).

Definition call {A} (op : B -> outcome A * B) (ev : outcome A -> event)
  : M state A :=
  fun w =>
    let (r, d') := op (driver w) in
    (r, log (ev r) (World (environ w) d' (trace w))).

Definition print (line : string) : M state unit := modify (log (EvPrint line)).

(** [os.getenv(name, default)] with a string default. *)
Definition getenv (name default : string) : M state string :=
  gets (fun w =>
          match environ w name with
          | Some v => v
          | None => default
          end).

(** [ClaudeClient()] *)
Definition __init__ : M state self :=
  region <- getenv "AWS_REGION" "us-east-1" ;;
  c <- call (boto3_client "bedrock-runtime" region)
            (EvClient "bedrock-runtime" region) ;;
  model <- getenv "CLAUDE_MODEL_ID" "anthropic.claude-3-5-sonnet-20241022-v2:0" ;;
  ret (Self c model).

(** [ClaudeClient.send_message] *)
Definition send_message (this : self) (messages : list pyval)
           (system : option string) (max_tokens : Z) : M state pyval :=
  try_except
    (let body := json_dumps (PDict (request_body messages system max_tokens)) in
     response <- call (invoke_model (client this) (model_id this) body)
                      (EvInvokeModel (client this) (model_id this) body) ;;
     raw <- call (body_read response) (EvRead response) ;;
     response_body <- lift (json_loads raw) ;;
     content <- lift (subscript response_body (KStr "content")) ;;
     block <- lift (subscript content (KInt 0)) ;;
     lift (subscript block (KStr "text")))
    (fun e =>
       print ("❌ Claude API error: " ++ exn_str e) ;;
       raise e).

(** [ClaudeClient.chat] *)
Definition chat (this : self) (user_message : string) (system : option string)
  : M state pyval :=
  let messages := [PDict [("role", PStr "user"); ("content", PStr user_message)]] in
  send_message this messages system DEFAULT_MAX_TOKENS.

(** *** What a trace says *)

Definition events_of (w w' : state) : list event :=
  new_events (trace w) (trace w').

(** The envelopes handed to [invoke_model], with the model they went to. *)
Fixpoint submitted (evs : list event) : list (string * string) :=
  match evs with
  | [] => []
  | EvInvokeModel _ model body _ :: evs' => (model, body) :: submitted evs'
  | _ :: evs' => submitted evs'
  end.

(** The exception with which a transport call ended, if it raised. *)
Definition raised_by (ev : event) : option exn :=
  match ev with
  | EvClient _ _ (Raised e) | EvInvokeModel _ _ _ (Raised e)
  | EvRead _ (Raised e) => Some e
  | _ => None
  end.

(** The reply the transport delivered: the raw body of a completed read. *)
Definition delivered (evs : list event) (raw : string) : Prop :=
  exists c model body resp,
    In (EvInvokeModel c model body (Returned resp)) evs /\
    In (EvRead resp (Returned raw)) evs.

(** The envelope has the three fixed fields, in this order, and a [system]
    field exactly when [present system]. *)
Definition envelope_contract (present : option string -> bool)
           (messages : list pyval) (system : option string) (max_tokens : Z)
  : Prop :=
  let body := request_body messages system max_tokens in
  dict_get body "anthropic_version" = Some (PStr "bedrock-2023-05-31") /\
  dict_get body "max_tokens" = Some (PInt max_tokens) /\
  dict_get body "messages" = Some (PList messages) /\
  dict_get body "system"
    = (if present system then Some (pyval_of_opt system) else None) /\
  dict_keys body
    = (["anthropic_version"; "max_tokens"; "messages"]
         ++ (if present system then ["system"] else []))%list.

Definition is_given (system : option string) : bool :=
  match system with
  | Some _ => true
  | None => false
  end.

(** A call returns the first block's text of the delivered reply, or raises
    [RelayError]. *)
Definition relay_contract (this : self) (messages : list pyval)
           (system : option string) (max_tokens : Z) (w : state) : Prop :=
  match send_message this messages system max_tokens w with
  | (Returned text, w') =>
      exists raw body,
        delivered (events_of w w') raw /\
        json_loads raw = Returned body /\
        first_block_text body = Some text
  | (Raised e, _) => exn_class e = "RelayError"
  end.

End Relay.

(** *** A scripted transport and a test codec *)

Record bedrock_mock : Type := BedrockMock {
  mock_invoke : outcome response;
  mock_body : outcome string
}.

#[export] Instance mock_bedrock : Bedrock bedrock_mock := {|
  boto3_client := fun _ _ d => (Returned 1, d);
  invoke_model := fun _ _ _ d => (mock_invoke d, d);
  body_read := fun _ d => (mock_body d, d)
|}.

Definition dquote : string := String (ascii_of_nat 34) EmptyString.

Definition quoted (s : string) : string := dquote ++ s ++ dquote.

(** Renders a value as JSON text; the test values need no escaping. *)
Fixpoint render (v : pyval) : string :=
  match v with
  | PNone => "null"
  | PBool true => "true"
  | PBool false => "false"
  | PInt z => NilZero.string_of_int (Z.to_int z)
  | PFloat r => r
  | PStr s => quoted s
  | PList l => "[" ++ String.concat ", " (map render l) ++ "]"
  | PDict d =>
      "{" ++ String.concat ", "
                (map (fun kv => quoted (fst kv) ++ ": " ++ render (snd kv)) d)
          ++ "}"
  end.

Definition reply_ok : pyval :=
  PDict [("id", PStr "msg_01");
         ("content", PList [PDict [("type", PStr "text");
                                   ("text", PStr "Butler online")]])].

Definition reply_error : pyval :=
  PDict [("message", PStr "Too many requests")].

(** Decodes the documents of the tests. *)
Definition parse (raw : string) : outcome pyval :=
  if raw =? render reply_ok then Returned reply_ok
  else if raw =? render reply_error then Returned reply_error
  else Raised (Exn "JSONDecodeError" "Expecting value: line 1 column 1 (char 0)").

#[export] Instance test_json : Json := {|
  json_dumps := render;
  json_loads := parse
|}.

Definition no_environ (name : string) : option string := None.

Definition answering : world bedrock_mock event :=
  World no_environ (BedrockMock (Returned 3) (Returned (render reply_ok))) [].

Definition throttled : world bedrock_mock event :=
  World no_environ
        (BedrockMock (Raised (Exn "ClientError" "ThrottlingException"))
                     (Returned ""))
        [].

Definition misshapen : world bedrock_mock event :=
  World no_environ (BedrockMock (Returned 3) (Returned (render reply_error))) [].

Definition butler : self :=
  Self 1 "anthropic.claude-3-5-sonnet-20241022-v2:0".

End ClaudeClient.

(** ** The agent: [agents/butler/butler.py] *)

Module Butler.

(** Built-ins of Python whose behaviour on arbitrary text is not spelled out
    here: [repr], [str.strip], [str.lower] and the slice [s[:n]] of a string,
    which counts characters where a [string] here holds their encoding. *)
Class Builtins : Type := {
  py_repr : pyval -> string;
  str_strip : string -> string;
  str_lower : string -> string;
  str_prefix : nat -> string -> string
}.

(** [str(v)], as an f-string shows a value: a string as it is, anything else
    by its [repr]. *)
Definition py_str `{Builtins} (v : pyval) : string :=
  match v with
  | PStr s => s
  | _ => py_repr v
  end.

(** [v[:n]]: a prefix of a string or of a list; other values cannot be
    sliced. *)
Definition slice_to `{Builtins} (v : pyval) (n : nat) : outcome pyval :=
  match v with
  | PStr s => Returned (PStr (str_prefix n s))
  | PList l => Returned (PList (firstn n l))
  | PDict _ => Raised (TypeError "unhashable type: 'slice'")
  | _ =>
      Raised (TypeError (repr_str (type_name v) ++ " object is not subscriptable"))
  end.

Definition nl : string := String (ascii_of_nat 10) EmptyString.

Definition EOFError : exn := Exn "EOFError" "EOF when reading a line".

(** [sys.exit(status)] raises [SystemExit]. *)
Definition SystemExit (status : Z) : exn :=
  Exn "SystemExit" (NilZero.string_of_int (Z.to_int status)).

(** What the process does, in order: what the store and the relay record,
    the lines it prints itself and the prompts of [input]. *)
Inductive event : Type :=
| Store (ev : Database.event)
| Relay (ev : ClaudeClient.event)
| Out (line : string)
| Prompt (text : string).

Fixpoint store_events (evs : list event) : list Database.event :=
  match evs with
  | [] => []
  | Store ev :: evs' => ev :: store_events evs'
  | _ :: evs' => store_events evs'
  end.

Fixpoint relay_events (evs : list event) : list ClaudeClient.event :=
  match evs with
  | [] => []
  | Relay ev :: evs' => ev :: relay_events evs'
  | _ :: evs' => relay_events evs'
  end.

(** A [ButlerAgent] object. *)
Record agent : Type := Agent {
  tenant_id : string;
  claude : ClaudeClient.self;
  system_prompt : string
}.

Definition SYSTEM_PROMPT : string :=
  "You are Butler, a helpful personal assistant." ++ nl
  ++ "        " ++ nl
  ++ "You help with:" ++ nl
  ++ "- Email summarization and management" ++ nl
  ++ "- Calendar organization" ++ nl
  ++ "- Daily briefings" ++ nl
  ++ "- Task prioritization" ++ nl
  ++ nl
  ++ "Be concise, professional, and proactive.".

Definition HEALTH_PING : string := "Say 'Butler online' in 3 words or less".

(** The parsed command line: [--health-check] and [--tenant-id]. *)
Record arguments : Type := Arguments_ {
  health_check : bool;
  arg_tenant_id : string
}.

Section Agent.
Context {D B : Type} `{PG : Database.Psycopg2 D}
        `{BR : ClaudeClient.Bedrock B} `{JS : ClaudeClient.Json}
        `{PY : Builtins}.

(** The process: one environment, both libraries, one trace. *)
Definition state : Type := world (D * B) event.

Definition log (ev : event) (w : state) : state :=
  World (environ w) (driver w) (trace w ++ [ev]).

Definition print (line : string) : M state unit := modify (log (Out line)).

(** A run of the store inside the process: it sees the environment and the
    state of psycopg2, and what it records joins the trace. *)
Definition in_store {A}
           (run : world D Database.event -> outcome A * Database.state D)
  : M state A :=
  fun w =>
    let (r, s') := run (World (environ w) (fst (driver w)) []) in
    (r, World (environ w)
              (driver (Database.outside s'), snd (driver w))
              (trace w ++ map Store (trace (Database.outside s')))).

(** The same for the relay. *)
Definition in_relay {A} (m : M (world B ClaudeClient.event) A) : M state A :=
  fun w =>
    let (r, w') := m (World (environ w) (snd (driver w)) []) in
    (r, World (environ w) (fst (driver w), driver w')
              (trace w ++ map Relay (trace w'))).

(** [ButlerAgent(tenant_id)] *)
Definition __init__ (tenant : string) : M state agent :=
  c <- in_relay ClaudeClient.__init__ ;;
  ret (Agent tenant c SYSTEM_PROMPT).

(** The body of the [with] block of [run_health_check]. *)
Definition version_query : M (Database.state D) unit :=
  result <- Database.execute "SELECT version()" None ;;
  first <- lift (subscript (PList (map PDict result)) (KInt 0)) ;;
  version <- lift (subscript first (KStr "version")) ;;
  shown <- lift (slice_to version 50) ;;
  Database.print ("✅ Database: " ++ py_str shown ++ "...").

(** [ButlerAgent.run_health_check].  A [return False] in a handler is the
    [false] the rest of the function is skipped on. *)
Definition run_health_check (this : agent) : M state bool :=
  print "🔍 Running Butler health check..." ;;
  database_ok <-
    try_except
      (in_store (Database.scoped (Some (tenant_id this)) version_query) ;;
       ret true)
      (fun e =>
         print ("❌ Database check failed: " ++ exn_str e) ;;
         ret false) ;;
  if negb database_ok then ret false
  else
    claude_ok <-
      try_except
        (response <- in_relay (ClaudeClient.chat (claude this) HEALTH_PING
                                                 (Some (system_prompt this))) ;;
         print ("✅ Claude API: " ++ py_str response) ;;
         ret true)
        (fun e =>
           print ("❌ Claude API check failed: " ++ exn_str e) ;;
           ret false) ;;
    if negb claude_ok then ret false
    else
      print "✅ All systems operational!" ;;
      ret true.

(** [ButlerAgent.process_request] *)
Definition process_request (this : agent) (user_input : string) : M state pyval :=
  try_except
    (in_relay (ClaudeClient.chat (claude this) user_input
                                 (Some (system_prompt this))))
    (fun e => ret (PStr ("❌ Error processing request: " ++ exn_str e))).

Definition QUIT_WORDS : list string := ["quit"; "exit"; "q"].

(** [user_input.lower() in ['quit', 'exit', 'q']] *)
Definition is_quit (user_input : string) : bool :=
  existsb (String.eqb (str_lower user_input)) QUIT_WORDS.

(** The [while True] loop of [interactive_mode], on the lines standard input
    still holds; [input] raises [EOFError] when there is none left. *)
Fixpoint loop (this : agent) (stdin : list string) : M state unit :=
  match stdin with
  | [] =>
      modify (log (Prompt "You: ")) ;;
      raise EOFError
  | line :: rest =>
      modify (log (Prompt "You: ")) ;;
      let user_input := str_strip line in
      if is_quit user_input then print "👋 Goodbye!"
      else if user_input =? "" then loop this rest
      else
        response <- process_request this user_input ;;
        print (nl ++ "Butler: " ++ py_str response ++ nl) ;;
        loop this rest
  end.

(** [ButlerAgent.interactive_mode] *)
Definition interactive_mode (this : agent) (stdin : list string) : M state unit :=
  print (nl ++ "🤵 Butler Agent - Interactive Mode") ;;
  print ("Type 'quit' to exit" ++ nl) ;;
  loop this stdin.

(** [main], from the parsed arguments on. *)
Definition main (args : arguments) (stdin : list string) : M state unit :=
  butler <- __init__ (arg_tenant_id args) ;;
  if health_check args then
    success <- run_health_check butler ;;
    raise (SystemExit (if success then 0 else 1))
  else interactive_mode butler stdin.

(** *** What a session amounts to *)

(** The requests a session makes: the stripped lines that are neither blank
    nor a quit word, up to the first quit word. *)
Fixpoint requests (stdin : list string) : list string :=
  match stdin with
  | [] => []
  | line :: rest =>
      if is_quit (str_strip line) then []
      else if str_strip line =? "" then requests rest
      else str_strip line :: requests rest
  end.

(** Whether some line is a quit word. *)
Fixpoint quits (stdin : list string) : bool :=
  match stdin with
  | [] => false
  | line :: rest => is_quit (str_strip line) || quits rest
  end.

(** The envelope of a request of the agent, with the model it goes to. *)
Definition envelope (this : agent) (user_input : string) : string * string :=
  (ClaudeClient.model_id (claude this),
   ClaudeClient.json_dumps
     (PDict (ClaudeClient.request_body (ClaudeClient.single_turn user_input)
                                       (Some (system_prompt this)) 1024))).

Definition is_returned {A} (r : outcome A) : bool :=
  match r with
  | Returned _ => true
  | Raised _ => false
  end.

(** The two checks of the health check, each on its own library. *)
Definition database_check (this : agent) (w : state)
  : outcome unit * Database.state D :=
  Database.scoped (Some (tenant_id this)) version_query
                  (World (environ w) (fst (driver w)) []).

Definition claude_check (this : agent) (w : state)
  : outcome pyval * world B ClaudeClient.event :=
  ClaudeClient.chat (claude this) HEALTH_PING (Some (system_prompt this))
                    (World (environ w) (snd (driver w)) []).

End Agent.

(** *** Built-ins for plain ASCII text, and a test process *)

Definition is_space (a : ascii) : bool :=
  let n := nat_of_ascii a in
  ((9 <=? n) && (n <=? 13) || (28 <=? n) && (n <=? 32))%nat.

Fixpoint lstrip (s : string) : string :=
  match s with
  | EmptyString => EmptyString
  | String a s' => if is_space a then lstrip s' else s
  end.

Fixpoint rstrip (s : string) : string :=
  match s with
  | EmptyString => EmptyString
  | String a s' =>
      match rstrip s' with
      | EmptyString => if is_space a then EmptyString else String a EmptyString
      | r => String a r
      end
  end.

Definition lower_ascii (a : ascii) : ascii :=
  let n := nat_of_ascii a in
  if ((65 <=? n) && (n <=? 90))%nat then ascii_of_nat (n + 32) else a.

Fixpoint lower (s : string) : string :=
  match s with
  | EmptyString => EmptyString
  | String a s' => String (lower_ascii a) (lower s')
  end.

#[export] Instance ascii_builtins : Builtins := {|
  py_repr := ClaudeClient.render;
  str_strip := fun s => rstrip (lstrip s);
  str_lower := lower;
  str_prefix := substring 0
|}.

Definition test_process
  : world (Database.pg_mock * ClaudeClient.bedrock_mock) event :=
  World Database.test_environ
        (driver Database.test_world, driver ClaudeClient.answering) [].

Definition dropping_process
  : world (Database.pg_mock * ClaudeClient.bedrock_mock) event :=
  World Database.test_environ
        (driver Database.dropping_world, driver ClaudeClient.answering) [].

Definition throttled_process
  : world (Database.pg_mock * ClaudeClient.bedrock_mock) event :=
  World Database.test_environ
        (driver Database.test_world, driver ClaudeClient.throttled) [].

Definition test_agent : agent :=
  Agent "customer-001" ClaudeClient.butler SYSTEM_PROMPT.

End Butler.

(** * Properties of the tenant-scoped store *)

Lemma new_events_app {Ev : Type} (before evs : list Ev) :
  new_events before (before ++ evs) = evs.
Proof.
  unfold new_events. induction before as [|e before IH]; simpl; auto.
Qed.

Lemma new_events_nil {Ev : Type} (before : list Ev) :
  new_events before before = [].
Proof.
  rewrite <- (app_nil_r before) at 2. apply new_events_app.
Qed.

Module StoreProofs.
Import Database.

Section Facts.
Context {D : Type} `{PG : Psycopg2 D}.

Ltac run :=
  unfold connect, execute, close, __enter__, __exit__, with_, try_except,
    try_finally, bind, ret, raise, lift, gets, modify, print, getenv,
    getenv_default, psycopg2_connect, self_connection, connection_cursor,
    cursor_execute, cursor_description, cursor_fetchall, cursor_close,
    connection_commit, connection_close, call, log, set_connection,
    set_outside, __init__ in *;
  simpl in *.

(** Case analysis on the next library call of a run [H]. *)
Ltac driver_step H :=
  match type of H with
  | context [pg_connect ?x ?y] => destruct (pg_connect x y) as [[?h|?e] ?d]
  | context [pg_cursor ?x ?y] => destruct (pg_cursor x y) as [[?n|?e] ?d]
  | context [pg_execute ?x ?q ?p ?y] =>
      destruct (pg_execute x q p y) as [[[]|?e] ?d]
  | context [pg_description ?x ?y] =>
      destruct (pg_description x y) as [[|? ?]|]
  | context [pg_fetchall ?x ?y] =>
      destruct (pg_fetchall x y) as [[?rows|?e] ?d]
  | context [pg_cursor_close ?x ?y] =>
      destruct (pg_cursor_close x y) as [[[]|?e] ?d]
  | context [pg_commit ?x ?y] => destruct (pg_commit x y) as [[[]|?e] ?d]
  | context [pg_close ?x ?y] => destruct (pg_close x y) as [[[]|?e] ?d]
  end;
  simpl in H.

(** The same on the goal. *)
Ltac driver_goal :=
  match goal with
  | |- context [pg_connect ?x ?y] => destruct (pg_connect x y) as [[?h|?e] ?d]
  | |- context [pg_cursor ?x ?y] => destruct (pg_cursor x y) as [[?n|?e] ?d]
  | |- context [pg_execute ?x ?q ?p ?y] =>
      destruct (pg_execute x q p y) as [[[]|?e] ?d]
  | |- context [pg_description ?x ?y] =>
      destruct (pg_description x y) as [[|? ?]|]
  | |- context [pg_fetchall ?x ?y] =>
      destruct (pg_fetchall x y) as [[?rows|?e] ?d]
  | |- context [pg_cursor_close ?x ?y] =>
      destruct (pg_cursor_close x y) as [[[]|?e] ?d]
  | |- context [pg_commit ?x ?y] => destruct (pg_commit x y) as [[[]|?e] ?d]
  end;
  simpl.

Ltac flat := unfold events_of; simpl; rewrite <- ?app_assoc; simpl;
  rewrite ?new_events_app, ?new_events_nil.

(** Finds, in a known trace, the library call that raised. *)
Ltac pick_raised :=
  first
    [ solve [eexists; split; [left; reflexivity | reflexivity]]
    | solve [eexists; split; [right; left; reflexivity | reflexivity]]
    | solve [eexists; split; [do 2 right; left; reflexivity | reflexivity]]
    | solve [eexists; split; [do 3 right; left; reflexivity | reflexivity]]
    | solve [eexists; split; [do 4 right; left; reflexivity | reflexivity]] ].

(** Settles a goal from the place [H] gives an event in a known trace. *)
Ltac traced H :=
  repeat (destruct H as [H|H]; try discriminate; try contradiction);
  try contradiction;
  inversion H; subst;
  first [ split; reflexivity
        | reflexivity
        | left; reflexivity
        | right; eexists; split;
          [ first [ left; reflexivity | right; left; reflexivity
                  | do 2 right; left; reflexivity
                  | do 3 right; left; reflexivity ]
          | reflexivity ] ].

Lemma nonempty_eqb (tenant : string) : tenant <> "" -> (tenant =? "") = false.
Proof.
  intros H. destruct (String.eqb_spec tenant ""); [contradiction|reflexivity].
Qed.

(** C1 (as amended): for every non-empty tenant identifier T, a successful
    open with tenant T has issued exactly one statement, the session-scoped
    [SET app.tenant_id = %s] with T as its parameter, and the session tag read
    right after the open is T. *)
Theorem connect_tags_session (tenant : string) (w : world D event) :
  tenant <> "" -> tags_session tenant w.
Proof.
  intros Hne s' Hrun.
  run. driver_step Hrun; [|discriminate].
  rewrite (nonempty_eqb tenant Hne) in Hrun. simpl in Hrun.
  driver_step Hrun; [|discriminate].
  do 2 (driver_step Hrun; try discriminate).
  injection Hrun as <-. exists h. flat.
  unfold session_tag. simpl. rewrite Nat.eqb_refl. simpl. auto.
Qed.

(** C10: opening with the empty string as tenant behaves exactly as opening
    with no tenant: same outcome, same connection, same world afterwards, and
    no statement at all is issued; when the open succeeds the connection the
    handshake returned is established. *)
Theorem empty_tenant_as_none (w : world D event) :
  let with_empty := connect (__init__ (Some "") w) in
  let without := connect (__init__ None w) in
  let evs := events_of (__init__ (Some "") w) (snd with_empty) in
  fst with_empty = fst without /\
  connection (snd with_empty) = connection (snd without) /\
  outside (snd with_empty) = outside (snd without) /\
  statements evs = [] /\
  (fst with_empty = Returned tt ->
   exists args h,
     In (EvConnect args (Returned h)) evs /\ connection (snd with_empty) = Some h).
Proof.
  run. driver_goal; flat; repeat split; auto; try discriminate.
  intros _. eexists _, h. split; [left; reflexivity | reflexivity].
Qed.

(** C4 (as amended): whenever a library call of open fails, open raises,
    and what it raises is the very exception of the failing call, unchanged:
    that of the handshake, of the request for a cursor, of the tagging
    statement, or, when closing the cursor fails as well, of that later call.
    Conversely every exception open raises is the exception of one of its
    library calls, and the failure was reported on standard output as the last
    thing open did.  When it is the handshake that fails, no connection is
    stored in the object. *)
Theorem connect_failure_reraised (tenant : option string) (w : world D event) :
  let run := connect (__init__ tenant w) in
  let evs := events_of (__init__ tenant w) (snd run) in
  (forall args e,
      In (EvConnect args (Raised e)) evs ->
      fst run = Raised e /\ connection (snd run) = None) /\
  (forall h e, In (EvCursor h (Raised e)) evs -> fst run = Raised e) /\
  (forall c query params e,
      In (EvExecute c query params (Raised e)) evs ->
      fst run = Raised e \/
      exists e', In (EvCursorClose c (Raised e')) evs /\ fst run = Raised e') /\
  (forall c e, In (EvCursorClose c (Raised e)) evs -> fst run = Raised e) /\
  (forall e,
      fst run = Raised e ->
      (exists ev, In ev evs /\ raised_by ev = Some e) /\
      last evs (EvPrint "")
      = EvPrint ("❌ Database connection failed: " ++ exn_str e)).
Proof.
  run.
  driver_goal;
    [destruct (truthy_str tenant); simpl; [driver_goal; [do 2 driver_goal|]|]|];
    flat;
    (split; [intros ? ? H; simpl in H; traced H|]);
    (split; [intros ? ? H; simpl in H; traced H|]);
    (split; [intros ? ? ? ? H; simpl in H; traced H|]);
    (split; [intros ? ? H; simpl in H; traced H|]);
    intros ? H; try discriminate; injection H as <-;
    (split; [pick_raised|reflexivity]).
Qed.

(** Away from descriptions without a column: when [execute] returns, the
    cursor reported either a result set with at least one column, and then the
    value returned is the sequence of row mappings [fetchall] delivered and no
    commit was performed, or no result set, and then the transaction was
    committed on the object's connection and the value returned is the empty
    sequence. *)
Theorem execute_reads_or_commits (query : string) (params : option (list pyval))
        (s : state D) :
  execute_contract (fun columns => columns <> []) query params s.
Proof.
  intros rows s' Hrun. destruct s as [t [h|] w]; run; [|discriminate].
  driver_step Hrun; [|discriminate].
  driver_step Hrun; [|driver_step Hrun; discriminate].
  driver_step Hrun.
  - do 2 (driver_step Hrun; try discriminate). injection Hrun as <- <-.
    eexists _, _. split; [flat; do 2 right; left; reflexivity|].
    simpl. intros H. now contradiction H.
  - do 2 (driver_step Hrun; try discriminate). injection Hrun as <- <-.
    eexists _, _. split; [flat; do 2 right; left; reflexivity|].
    flat. intros _. split; [do 3 right; left; reflexivity|].
    intros h' r' Hin. simpl in Hin. intuition discriminate.
  - do 2 (driver_step Hrun; try discriminate). injection Hrun as <- <-.
    eexists _, _. split; [flat; do 2 right; left; reflexivity|].
    flat. split; [reflexivity|]. exists h. split; [reflexivity|].
    do 3 right; left; reflexivity.
Qed.

Lemma connect_stores_connection (tenant : option string) (w : world D event)
      (s1 : state D) :
  connect (__init__ tenant w) = (Returned tt, s1) ->
  exists h, connection s1 = Some h.
Proof.
  intros Hrun. run. driver_step Hrun; [|discriminate].
  destruct (truthy_str tenant); simpl in Hrun.
  - driver_step Hrun; [|discriminate].
    do 2 (driver_step Hrun; try discriminate).
    injection Hrun as <-. now exists h.
  - injection Hrun as <-. now exists h.
Qed.

(** C2 (as amended): under scoped acquisition, once [__enter__] has
    returned, the object holds a connection and the body is followed by
    [close] however it ends, by returning or by raising: the state the
    statement leaves is the state [close] leaves after the body.  That
    [close] is the next interaction with the library, on the connection the
    object holds when the body ends, and the library reports that connection
    closed afterwards; the outcome of the body is what the caller sees, unless
    [close] itself raises.  Only a body that has unset the connection of the
    object is followed by nothing. *)
Theorem scoped_closes {A : Type} (tenant : option string)
        (body : M (state D) A) (w : world D event) (s1 : state D) :
  __enter__ (__init__ tenant w) = (Returned tt, s1) ->
  (exists h, connection s1 = Some h) /\
  snd (scoped tenant body w) = snd (close (snd (body s1))) /\
  match connection (snd (body s1)) with
  | Some h =>
      exists rc,
        trace (outside (snd (scoped tenant body w)))
        = (trace (outside (snd (body s1)))
             ++ EvClose h rc
             :: match rc with
                | Returned _ => [EvPrint "✅ Database connection closed"]
                | Raised _ => []
                end)%list /\
        pg_closed h (driver (outside (snd (scoped tenant body w)))) = true /\
        fst (scoped tenant body w)
        = match rc with
          | Returned _ => fst (body s1)
          | Raised e => Raised e
          end
  | None => scoped tenant body w = body s1
  end.
Proof.
  intros Henter. split; [exact (connect_stores_connection tenant w s1 Henter)|].
  unfold scoped, with_, bind, try_finally. rewrite Henter.
  destruct (body s1) as [r s2]. simpl. split.
  - unfold __exit__. now destruct (close s2) as [[[]|e] s3].
  - unfold __exit__, close, bind, gets, connection_close, call, print, modify,
      log, set_outside.
    destruct (connection s2) as [h|] eqn:Hh; simpl; [|reflexivity].
    pose proof (pg_close_closes h (driver (outside s2))) as Hclosed.
    destruct (pg_close h (driver (outside s2))) as [[[]|e] d]; simpl in *.
    + exists (Returned tt). rewrite <- app_assoc. repeat split; auto.
    + exists (Raised e). repeat split; auto.
Qed.

(** C5: [close] on a never-opened object does nothing at all and raises no
    error, and in any state a [close] that follows a [close] raises no
    error.  The object keeps its connection after the first [close], so the
    second one reaches the library again; it is harmless by the two laws of
    [Psycopg2] for closing. *)
Theorem close_is_safe :
  (forall tenant (w : world D event),
      close (__init__ tenant w) = (Returned tt, __init__ tenant w)) /\
  (forall s : state D, fst (close (snd (close s))) = Returned tt).
Proof.
  split; [reflexivity|].
  intros [t [h|] w]; [|reflexivity].
  unfold close, bind, gets, connection_close, call, print, modify, log,
    set_outside. simpl.
  pose proof (pg_close_closes h (driver w)) as Hclosed.
  destruct (pg_close h (driver w)) as [[[]|e] d]; simpl in *;
    rewrite (pg_close_idempotent h d Hclosed); reflexivity.
Qed.

Lemma execute_statements (query : string) (params : option (list pyval))
      (s : state D) :
  statements (events_of s (snd (execute query params s)))
  = match connection s with
    | Some h =>
        match fst (pg_cursor h (driver (outside s))) with
        | Returned _ => [(query, params)]
        | Raised _ => []
        end
    | None => []
    end.
Proof.
  destruct s as [t [h|] w]; run; [|now flat].
  driver_goal; [|now flat].
  driver_goal; [|driver_goal; now flat].
  driver_goal; do 2 driver_goal; now flat.
Qed.

(** C9: [execute] hands its [query_text] to the library verbatim, with the
    parameters next to it as a separate argument: that one statement is the
    whole of what it submits, and it submits it whenever the object holds a
    connection that yields a cursor.  The text handed over is therefore the
    same whatever the parameter values are.  Open likewise submits the
    constant tagging statement, with the tenant identifier as its parameter,
    and nothing else, whenever the handshake succeeded, the tenant identifier
    is truthy and the connection yields a cursor. *)
Theorem parameters_stay_apart :
  (forall query params (s : state D),
      statements (events_of s (snd (execute query params s)))
      = match connection s with
        | Some h =>
            match fst (pg_cursor h (driver (outside s))) with
            | Returned _ => [(query, params)]
            | Raised _ => []
            end
        | None => []
        end) /\
  (forall query params params' (s : state D),
      map fst (statements (events_of s (snd (execute query params s))))
      = map fst (statements (events_of s (snd (execute query params' s))))) /\
  (forall tenant (w : world D event),
      statements
        (events_of (__init__ tenant w) (snd (connect (__init__ tenant w))))
      = match
          pg_connect
            (ConnArgs (environ w "DB_HOST")
                      (match environ w "DB_PORT" with
                       | Some port => PStr port
                       | None => PInt 5432
                       end)
                      (environ w "DB_NAME") (environ w "DB_USER")
                      (environ w "DB_PASSWORD") RealDictCursor)
            (driver w)
        with
        | (Returned h, d) =>
            if truthy_str tenant then
              match fst (pg_cursor h d) with
              | Returned _ => [(SET_TENANT, Some [pyval_of_opt tenant])]
              | Raised _ => []
              end
            else []
        | (Raised _, _) => []
        end).
Proof.
  split; [|split].
  - exact execute_statements.
  - intros query params params' s. rewrite !execute_statements.
    destruct (connection s); [|reflexivity].
    destruct (fst (pg_cursor _ _)); reflexivity.
  - intros tenant w. run. driver_goal; [|now flat].
    destruct (truthy_str tenant); simpl; [|now flat].
    driver_goal; [|now flat]. do 2 driver_goal; now flat.
Qed.

Lemma statements_app (l1 l2 : list event) :
  statements (l1 ++ l2) = (statements l1 ++ statements l2)%list.
Proof.
  induction l1 as [|ev l1 IH]; [reflexivity|].
  destruct ev; simpl; auto. now rewrite IH.
Qed.

Lemma connect_passed (tenant : option string) (w : world D event)
      (s1 : state D) :
  connect (__init__ tenant w) = (Returned tt, s1) ->
  exists args h evs,
    connection s1 = Some h /\
    trace (outside s1) = (trace w ++ EvConnect args (Returned h) :: evs)%list /\
    forall h' r, ~ In (EvClose h' r) evs.
Proof.
  intros Hrun. run. driver_step Hrun; [|discriminate].
  destruct (truthy_str tenant); simpl in Hrun.
  - driver_step Hrun; [|discriminate].
    do 2 (driver_step Hrun; try discriminate).
    injection Hrun as <-. eexists _, h, _. simpl. split; [reflexivity|].
    split; [rewrite <- !app_assoc; reflexivity|].
    simpl. intuition discriminate.
  - injection Hrun as <-. eexists _, h, _. simpl. split; [reflexivity|].
    split; [rewrite <- !app_assoc; reflexivity|].
    simpl. intuition discriminate.
Qed.

Lemma execute_extends (query : string) (params : option (list pyval))
      (s : state D) :
  exists evs,
    trace (outside (snd (execute query params s)))
    = (trace (outside s) ++ evs)%list /\
    connection (snd (execute query params s)) = connection s /\
    (forall h r, ~ In (EvClose h r) evs) /\
    (forall rows, fst (execute query params s) = Returned rows ->
                  In (query, params) (statements evs)).
Proof.
  destruct s as [t [h|] w]; run.
  2: { exists []. rewrite app_nil_r. repeat split; auto. discriminate. }
  driver_goal; [driver_goal; [driver_goal|]|]; repeat driver_goal;
    eexists; (split; [rewrite <- ?app_assoc; reflexivity|]);
    (split; [reflexivity|]);
    (split; [simpl; intuition discriminate|]);
    intros rows' Hrows; try discriminate; simpl; auto.
Qed.

(** *** Further properties of the store *)

(** [execute] on an object that holds no connection raises the
    [AttributeError] of the lookup on [None]; the library is not reached and
    nothing changes. *)
Theorem execute_without_connection (tenant : option string) (query : string)
        (params : option (list pyval)) (w : world D event) :
  execute query params (State tenant None w)
  = (Raised (AttributeError "'NoneType' object has no attribute 'cursor'"),
     State tenant None w).
Proof. reflexivity. Qed.

(** Whatever happens to the statement, the cursor [execute] opened is closed
    before [execute] is left: closing it is the last thing in the trace. *)
Theorem execute_closes_cursor (query : string) (params : option (list pyval))
        (s : state D) (h : handle) (c : cursor) :
  let evs := events_of s (snd (execute query params s)) in
  In (EvCursor h (Returned c)) evs ->
  exists r, last evs (EvPrint "") = EvCursorClose c r.
Proof.
  destruct s as [t [h'|] w]; run; [|flat; intros []].
  driver_goal;
    [|flat; intros Hin; simpl in Hin; intuition discriminate].
  driver_goal; [driver_goal|]; repeat driver_goal; flat; intros Hin;
    simpl in Hin;
    repeat (destruct Hin as [Hin|Hin]; try discriminate; try contradiction);
    injection Hin as <- <-; eexists; reflexivity.
Qed.

(** When the library rejects the statement, nothing is fetched and nothing is
    committed, and [execute] raises: the exception of the statement, unless
    closing the cursor raised one of its own. *)
Theorem failed_statement_commits_nothing (query : string)
        (params : option (list pyval)) (s : state D) (c : cursor) (e : exn) :
  let evs := events_of s (snd (execute query params s)) in
  In (EvExecute c query params (Raised e)) evs ->
  no_commit evs /\
  (forall c' r, ~ In (EvFetchall c' r) evs) /\
  exists e', fst (execute query params s) = Raised e' /\
             (e' = e \/ In (EvCursorClose c (Raised e')) evs).
Proof.
  destruct s as [t [h'|] w]; run; [|flat; intros []].
  driver_goal;
    [|flat; intros Hin; simpl in Hin; intuition discriminate].
  driver_goal; [driver_goal|]; repeat driver_goal; flat; intros Hin;
    simpl in Hin;
    repeat (destruct Hin as [Hin|Hin]; try discriminate; try contradiction);
    injection Hin as <- <-;
    (split; [intros ? ? H; simpl in H; intuition discriminate|]);
    (split; [intros ? ? H; simpl in H; intuition discriminate|]);
    eexists; (split; [reflexivity|]); simpl; auto.
Qed.

(** No operation rebinds what it is not meant to: [execute] and [close]
    leave the tenant identifier, the stored connection and the process
    environment as they were ([close] does not forget the connection it
    closed), and [connect] leaves the tenant identifier and the environment as
    they were. *)
Theorem fields_are_kept (s : state D) :
  (forall query params,
      let s' := snd (execute query params s) in
      tenant_id s' = tenant_id s /\ connection s' = connection s /\
      environ (outside s') = environ (outside s)) /\
  (let s' := snd (close s) in
   tenant_id s' = tenant_id s /\ connection s' = connection s /\
   environ (outside s') = environ (outside s)) /\
  (let s' := snd (connect s) in
   tenant_id s' = tenant_id s /\ environ (outside s') = environ (outside s)).
Proof.
  destruct s as [t c w]. split; [|split].
  - intros query params. destruct c as [h|]; run; [|auto].
    driver_goal; [|auto]. driver_goal; [driver_goal|]; repeat driver_goal; auto.
  - destruct c as [h|]; run; [|auto].
    destruct (pg_close h (driver w)) as [[[]|e] d]; simpl; auto.
  - run. driver_goal; [|auto].
    destruct (truthy_str t); simpl; [|auto]. repeat driver_goal; auto.
Qed.

Lemma execute_starts_with_cursor (tenant : option string) (h : handle)
      (w : world D event) (query : string) (params : option (list pyval)) :
  exists r,
    hd_error (events_of (State tenant (Some h) w)
                        (snd (execute query params (State tenant (Some h) w))))
    = Some (EvCursor h r).
Proof.
  run. (driver_goal; [driver_goal; [driver_goal|]|]); repeat driver_goal; flat;
    eexists; reflexivity.
Qed.

Lemma close_closes (s : state D) (h : handle) :
  connection s = Some h ->
  connection (snd (close s)) = Some h /\
  pg_closed h (driver (outside (snd (close s)))) = true.
Proof.
  destruct s as [t c w]. simpl. intros ->. run.
  pose proof (pg_close_closes h (driver w)) as Hclosed.
  destruct (pg_close h (driver w)) as [[[]|e] d]; simpl in *; auto.
Qed.

(** The object does not notice that it was closed: after [close], [execute]
    does not fail on the object but goes to the library, asking the closed
    connection for a cursor. *)
Theorem execute_after_close (s : state D) (h : handle) (query : string)
        (params : option (list pyval)) :
  connection s = Some h ->
  let s1 := snd (close s) in
  pg_closed h (driver (outside s1)) = true /\
  exists r, hd_error (events_of s1 (snd (execute query params s1)))
            = Some (EvCursor h r).
Proof.
  intros Hh. destruct (close_closes s h Hh) as [Hkept Hclosed].
  cbv zeta. split; [exact Hclosed|].
  destruct (snd (close s)) as [t1 c1 w1]. simpl in Hkept. subst c1.
  apply execute_starts_with_cursor.
Qed.

Lemma connect_never_closes (tenant : option string) (w : world D event)
      (h : handle) (r : outcome unit) :
  ~ In (EvClose h r)
       (events_of (__init__ tenant w) (snd (connect (__init__ tenant w)))).
Proof.
  run. driver_goal; [|flat; simpl; intuition discriminate].
  destruct (truthy_str tenant); simpl; [|flat; simpl; intuition discriminate].
  repeat driver_goal; flat; simpl; intuition discriminate.
Qed.

(** When the open fails under scoped acquisition, the body is not run and
    [close] is not called: the statement ends as the open ended, and the trace
    holds no [close], also when the handshake had succeeded. *)
Theorem failed_enter_skips_exit {A : Type} (tenant : option string)
        (body : M (state D) A) (w : world D event) (e : exn) (s' : state D) :
  __enter__ (__init__ tenant w) = (Raised e, s') ->
  scoped tenant body w = (Raised e, s') /\
  forall h r, ~ In (EvClose h r) (events_of (__init__ tenant w) s').
Proof.
  intros Henter. split.
  - unfold scoped, with_, bind. now rewrite Henter.
  - intros h r. pose proof (connect_never_closes tenant w h r) as H.
    unfold __enter__ in Henter. now rewrite Henter in H.
Qed.

(** The handshake is the first thing [connect] does and it happens once,
    with the five parameters as the environment has them, the port 5432 when
    [DB_PORT] is not set, and dictionary rows as the cursor factory. *)
Theorem handshake_parameters (tenant : option string) (w : world D event) :
  exists r rest,
    events_of (__init__ tenant w) (snd (connect (__init__ tenant w)))
    = EvConnect
        (ConnArgs (environ w "DB_HOST")
                  (match environ w "DB_PORT" with
                   | Some port => PStr port
                   | None => PInt 5432
                   end)
                  (environ w "DB_NAME") (environ w "DB_USER")
                  (environ w "DB_PASSWORD") RealDictCursor) r
      :: rest /\
    forall args r', ~ In (EvConnect args r') rest.
Proof.
  run. driver_goal; [|flat; eexists _, _; split; [reflexivity|];
                      simpl; intuition discriminate].
  destruct (truthy_str tenant); simpl;
    [|flat; eexists _, _; split; [reflexivity|]; simpl; intuition discriminate].
  repeat driver_goal; flat; eexists _, _; (split; [reflexivity|]);
    simpl; intuition discriminate.
Qed.

End Facts.

(** *** The properties on the scripted library *)

Lemma connect_tags_session_witness :
  "customer-001" <> "" /\
  fst (connect (__init__ (Some "customer-001") test_world)) = Returned tt /\
  tags_session "customer-001" test_world.
Proof.
  split; [discriminate|]. split; [reflexivity|].
  apply (connect_tags_session "customer-001" test_world). discriminate.
Defined.

(** C1 as stated fails for the empty tenant identifier: the open succeeds
    and no statement was issued. *)
Lemma empty_tenant_untagged : ~ tags_session "" test_world.
Proof.
  intros H. destruct (H _ eq_refl) as (h & _ & Hstatements & _).
  vm_compute in Hstatements. discriminate.
Qed.

Lemma empty_tenant_as_none_witness :
  fst (connect (__init__ (Some "") test_world)) = Returned tt /\
  exists args h,
    In (EvConnect args (Returned h))
       (events_of (__init__ (Some "") test_world)
                  (snd (connect (__init__ (Some "") test_world)))) /\
    connection (snd (connect (__init__ (Some "") test_world))) = Some h.
Proof.
  split; [reflexivity|].
  apply (empty_tenant_as_none test_world). reflexivity.
Defined.

(** C4 as stated fails when the link drops at the tagging statement: what
    reaches the caller is psycopg2's [OperationalError], not a
    [ConnectionError], and the connection the handshake returned is still
    held by the object, open, with no [close] in the trace. *)
Lemma tag_failure_leaks :
  ~ fails_cleanly (Some "customer-001") dropping_world /\
  exists e s',
    connect (__init__ (Some "customer-001") dropping_world) = (Raised e, s') /\
    exn_class e = "OperationalError" /\
    ~ discarded (events_of (__init__ (Some "customer-001") dropping_world) s') /\
    connection s' = Some 7 /\
    pg_closed 7 (driver (outside s')) = false.
Proof.
  assert (Hleak : ~ discarded
                    (events_of (__init__ (Some "customer-001") dropping_world)
                       (snd (connect (__init__ (Some "customer-001")
                                               dropping_world))))).
  { intros H. destruct (H _ 7 (or_introl eq_refl)) as [r Hin].
    vm_compute in Hin.
    repeat (destruct Hin as [Hin|Hin]; try discriminate). contradiction. }
  split.
  - intros H. destruct (H _ _ eq_refl) as [_ Hdiscarded]. now apply Hleak.
  - eexists _, _. split; [reflexivity|]. repeat split; auto.
Qed.

Lemma connect_failure_reraised_witness :
  (fst (connect (__init__ None unreachable_world))
   = Raised (Exn "OperationalError" "could not connect to server") /\
   connection (snd (connect (__init__ None unreachable_world))) = None) /\
  fst (connect (__init__ (Some "customer-001") dropping_world))
  = Raised (Exn "OperationalError" "server closed the connection unexpectedly").
Proof.
  split.
  - destruct (connect_failure_reraised None unreachable_world)
      as (Hhandshake & _).
    apply (Hhandshake (ConnArgs (Some "localhost") (PInt 5432) (Some "agents")
                                (Some "butler") (Some "secret") RealDictCursor)).
    vm_compute. left. reflexivity.
  - destruct (connect_failure_reraised (Some "customer-001") dropping_world)
      as (_ & _ & Htagging & _).
    destruct (Htagging (Cursor 7 0) SET_TENANT (Some [PStr "customer-001"])
                (Exn "OperationalError"
                     "server closed the connection unexpectedly"))
      as [Hraised|(e' & Hin & _)].
    + vm_compute. right. right. left. reflexivity.
    + exact Hraised.
    + vm_compute in Hin.
      repeat (destruct Hin as [Hin|Hin]; try discriminate). contradiction.
Defined.

(** C3: the code misses the statement whose result set has no column
    (PostgreSQL's [SELECT] with an empty target list).  Its description is the
    empty tuple, which the test [if cursor.description:] takes for no result
    set: [execute] fetches nothing, commits, and returns the empty sequence,
    though the result set holds a row. *)
Lemma zero_column_select_committed :
  let run := execute "SELECT" None opened in
  let evs := events_of opened (snd run) in
  fst run = Returned [] /\
  In (EvDescription (Cursor 7 0) (Some [])) evs /\
  In (EvCommit 7 (Returned tt)) evs /\
  (forall c r, ~ In (EvFetchall c r) evs) /\
  fst (pg_fetchall (Cursor 7 0) (driver (outside (snd run)))) = Returned [[]].
Proof.
  cbv zeta. split; [reflexivity|]. split; [vm_compute; tauto|].
  split; [vm_compute; tauto|]. split; [|reflexivity].
  intros c r Hin. vm_compute in Hin.
  repeat (destruct Hin as [Hin|Hin]; try discriminate). contradiction.
Qed.

(** The same run against the reading of the description as "not [None]". *)
Lemma zero_column_result_committed :
  ~ execute_contract (fun _ => True) "SELECT" None opened.
Proof.
  intros H. destruct (H _ _ eq_refl) as (c & d & Hin & Hmatch).
  vm_compute in Hin.
  repeat (destruct Hin as [Hin|Hin]; try discriminate); [|contradiction].
  injection Hin as <- <-.
  destruct (Hmatch I) as [Hfetch _]. vm_compute in Hfetch.
  repeat (destruct Hfetch as [Hfetch|Hfetch]; try discriminate). contradiction.
Qed.

Lemma execute_reads_or_commits_witness :
  fst (execute "SELECT 1" None opened) = Returned [[("?column?", PInt 1)]] /\
  execute_contract (fun columns => columns <> []) "SELECT 1" None opened.
Proof.
  split; [reflexivity|].
  exact (execute_reads_or_commits "SELECT 1" None opened).
Defined.

Lemma scoped_closes_witness :
  exists rc,
    trace (outside (snd (scoped (Some "customer-001")
                                (execute "SELECT version()" None) test_world)))
    = (trace (outside (snd (execute "SELECT version()" None opened)))
         ++ EvClose 7 rc
         :: match rc with
            | Returned _ => [EvPrint "✅ Database connection closed"]
            | Raised _ => []
            end)%list /\
    pg_closed 7 (driver (outside (snd (scoped (Some "customer-001")
                                              (execute "SELECT version()" None)
                                              test_world))))
    = true.
Proof.
  assert (Henter : __enter__ (__init__ (Some "customer-001") test_world)
                   = (Returned tt, opened)) by (vm_compute; reflexivity).
  destruct (scoped_closes (Some "customer-001") (execute "SELECT version()" None)
                          test_world opened Henter)
    as (_ & _ & Hclose).
  assert (Hkept : connection (snd (execute "SELECT version()" None opened))
                  = Some 7) by (vm_compute; reflexivity).
  rewrite Hkept in Hclose. destruct Hclose as (rc & Htrace & Hclosed & _).
  exists rc. split; [exact Htrace|exact Hclosed].
Defined.

(** C2 as stated fails when the link drops at the tagging statement of the
    open: the statement ends with the exception of the open, the body and
    [close] have not run, and the connection the handshake returned is still
    open. *)
Lemma failed_open_is_not_released :
  ~ always_released (Some "customer-001") (execute "SELECT version()" None)
                    dropping_world /\
  let run := scoped (Some "customer-001") (execute "SELECT version()" None)
                    dropping_world in
  fst run
  = Raised (Exn "OperationalError" "server closed the connection unexpectedly") /\
  connection (snd run) = Some 7 /\
  pg_closed 7 (driver (outside (snd run))) = false.
Proof.
  split; [|repeat split].
  intros H. destruct (H _ 7 (or_introl eq_refl)) as [r Hin].
  vm_compute in Hin.
  repeat (destruct Hin as [Hin|Hin]; try discriminate). contradiction.
Qed.

Lemma execute_closes_cursor_witness :
  exists r,
    last (events_of opened (snd (execute "SELECT 1" None opened))) (EvPrint "")
    = EvCursorClose (Cursor 7 0) r.
Proof.
  apply (execute_closes_cursor "SELECT 1" None opened 7 (Cursor 7 0)).
  vm_compute. left. reflexivity.
Defined.

Lemma failed_statement_commits_nothing_witness :
  no_commit (events_of opened (snd (execute "bogus" None opened))) /\
  fst (execute "bogus" None opened)
  = Raised (Exn "ProgrammingError" "syntax error").
Proof.
  split; [|reflexivity].
  apply (failed_statement_commits_nothing
           "bogus" None opened (Cursor 7 0)
           (Exn "ProgrammingError" "syntax error")).
  vm_compute. right. left. reflexivity.
Defined.

Lemma execute_after_close_witness :
  pg_closed 7 (driver (outside (snd (close opened)))) = true /\
  fst (execute "SELECT 1" None (snd (close opened)))
  = Raised (InterfaceError "connection already closed").
Proof.
  split; [|reflexivity].
  apply (execute_after_close opened 7 "SELECT 1" None). reflexivity.
Defined.

Lemma failed_enter_skips_exit_witness :
  fst (scoped (Some "customer-001") (execute "SELECT version()" None)
              dropping_world)
  = Raised (Exn "OperationalError" "server closed the connection unexpectedly").
Proof.
  assert (Henter : __enter__ (__init__ (Some "customer-001") dropping_world)
                   = (Raised (Exn "OperationalError"
                                  "server closed the connection unexpectedly"),
                      snd (connect (__init__ (Some "customer-001")
                                             dropping_world))))
    by (vm_compute; reflexivity).
  destruct (failed_enter_skips_exit (Some "customer-001")
              (execute "SELECT version()" None) dropping_world _ _ Henter)
    as [-> _].
  reflexivity.
Defined.

(** The scenario of the specification: open with tenant customer-001, run
    [SELECT 1], close. *)
Example select_one_scenario :
  fst (scoped (Some "customer-001") (execute "SELECT 1" None) test_world)
  = Returned [[("?column?", PInt 1)]].
Proof. reflexivity. Qed.

Example delete_is_committed :
  let s' := snd (execute "DELETE FROM notes WHERE id = %s" (Some [PInt 3]) opened) in
  fst (execute "DELETE FROM notes WHERE id = %s" (Some [PInt 3]) opened)
  = Returned [] /\
  In (EvCommit 7 (Returned tt)) (events_of opened s') /\
  statements (events_of opened s')
  = [("DELETE FROM notes WHERE id = %s", Some [PInt 3])].
Proof. vm_compute. intuition. Qed.

Example close_twice :
  fst ((close ;; close) opened) = Returned tt /\
  new_events (trace (outside opened)) (trace (outside (snd ((close ;; close) opened))))
  = [EvClose 7 (Returned tt); EvPrint "✅ Database connection closed";
     EvClose 7 (Returned tt); EvPrint "✅ Database connection closed"].
Proof. split; reflexivity. Qed.

Example execute_before_open :
  fst (execute "SELECT 1" None (__init__ None test_world))
  = Raised (AttributeError "'NoneType' object has no attribute 'cursor'").
Proof. reflexivity. Qed.

End StoreProofs.

(** * Properties of the message relay client *)

Module RelayProofs.
Import ClaudeClient.

Lemma seq_index_first {A : Type} (l : list A) : seq_index l 0 = hd_error l.
Proof.
  destruct l as [|x l]; [reflexivity|].
  unfold seq_index. cbn [length Z.ltb Z.compare]. rewrite Nat2Z.inj_succ.
  replace ((0 <=? 0) && (0 <? Z.succ (Z.of_nat (length l))))%Z with true;
    [reflexivity|].
  symmetry. apply andb_true_intro. split; [reflexivity|]. apply Z.ltb_lt. lia.
Qed.

(** The subscriptions succeed exactly on the expected content-block shape,
    and fail with a lookup error otherwise. *)
Lemma text_of_shape (response_body : pyval) :
  match text_of response_body with
  | Returned text => first_block_text response_body = Some text
  | Raised e =>
      first_block_text response_body = None /\
      In (exn_class e) ["KeyError"; "IndexError"; "TypeError"]
  end.
Proof.
  unfold text_of, first_block_text.
  destruct response_body as [| | | | |l|d]; simpl; auto 6.
  destruct (dict_get d "content") as [[| | | |s|l|d']|]; simpl; auto 6.
  - rewrite seq_index_first.
    destruct (list_ascii_of_string s); simpl; auto 6.
  - rewrite seq_index_first.
    destruct l as [|[| | | | |l'|block] l]; simpl; auto 6.
    destruct (dict_get block "text"); simpl; auto 6.
Qed.

Section Facts.
Context {B : Type} `{BR : Bedrock B} `{JS : Json}.

Ltac run :=
  unfold chat, send_message, try_except, bind, ret, raise, lift, gets, modify,
    print, call, log, events_of, DEFAULT_MAX_TOKENS in *;
  simpl in *.

Ltac flat := simpl; rewrite <- ?app_assoc; simpl;
  rewrite ?new_events_app, ?new_events_nil.

Lemma send_message_run (this : self) (messages : list pyval)
      (system : option string) (max_tokens : Z) (w : world B event) :
  let body := json_dumps (PDict (request_body messages system max_tokens)) in
  let invoke := EvInvokeModel (client this) (model_id this) body in
  let report e := EvPrint ("❌ Claude API error: " ++ exn_str e) in
  let run := send_message this messages system max_tokens w in
  let evs := events_of w (snd run) in
  match invoke_model (client this) (model_id this) body (driver w) with
  | (Raised e, _) => fst run = Raised e /\ evs = [invoke (Raised e); report e]
  | (Returned resp, d) =>
      match body_read resp d with
      | (Raised e, _) =>
          fst run = Raised e /\
          evs = [invoke (Returned resp); EvRead resp (Raised e); report e]
      | (Returned raw, _) =>
          match json_loads raw with
          | Raised e =>
              fst run = Raised e /\
              evs = [invoke (Returned resp); EvRead resp (Returned raw); report e]
          | Returned response_body =>
              match text_of response_body with
              | Returned text =>
                  fst run = Returned text /\
                  evs = [invoke (Returned resp); EvRead resp (Returned raw)]
              | Raised e =>
                  fst run = Raised e /\
                  evs = [invoke (Returned resp); EvRead resp (Returned raw);
                         report e]
              end
          end
      end
  end.
Proof.
  run. unfold text_of.
  destruct (invoke_model _ _ _ (driver w)) as [[resp|e] d]; simpl;
    [|now flat].
  destruct (body_read resp d) as [[raw|e] d']; simpl; [|now flat].
  destruct (json_loads raw) as [response_body|e]; simpl; [|now flat].
  destruct (subscript response_body (KStr "content")) as [content|e]; simpl;
    [|now flat].
  destruct (subscript content (KInt 0)) as [block|e]; simpl; [|now flat].
  destruct (subscript block (KStr "text")) as [text|e]; simpl; now flat.
Qed.

Lemma send_submits (this : self) (messages : list pyval)
      (system : option string) (max_tokens : Z) (w : world B event) :
  submitted (events_of w (snd (send_message this messages system max_tokens w)))
  = [(model_id this,
      json_dumps (PDict (request_body messages system max_tokens)))].
Proof.
  pose proof (send_message_run this messages system max_tokens w) as H.
  cbv zeta in H.
  destruct (invoke_model _ _ _ (driver w)) as [[resp|e] d];
    [|destruct H as [_ ->]; reflexivity].
  destruct (body_read resp d) as [[raw|e] d'];
    [|destruct H as [_ ->]; reflexivity].
  destruct (json_loads raw) as [response_body|e];
    [|destruct H as [_ ->]; reflexivity].
  destruct (text_of response_body); destruct H as [_ ->]; reflexivity.
Qed.

(** C6 (as amended): for every message list, optional system instruction
    and token bound, the envelope [send_message] builds has exactly the
    protocol version tag, the token bound under [max_tokens] (1024 by
    default), the message sequence under [messages], and a [system] field if
    and only if the system instruction is a non-empty string; serialised, it
    is the one body submitted to the model. *)
Theorem envelope_fields (this : self) (messages : list pyval)
        (system : option string) (max_tokens : Z) (w : world B event) :
  envelope_contract truthy_str messages system max_tokens /\
  dict_get (request_body messages system DEFAULT_MAX_TOKENS) "max_tokens"
    = Some (PInt 1024) /\
  submitted (events_of w (snd (send_message this messages system max_tokens w)))
    = [(model_id this,
        json_dumps (PDict (request_body messages system max_tokens)))].
Proof.
  split; [|split; [|apply send_submits]].
  - unfold envelope_contract, request_body.
    destruct system as [s|]; simpl; [|repeat split].
    destruct (s =? ""); simpl; repeat split.
  - unfold request_body. destruct (truthy_str system); reflexivity.
Qed.

(** C7 (as amended): a call either returns the text field of the first
    content block of the reply the transport delivered, or raises; what it
    raises is, unchanged, the exception of the step that failed (the transport
    call, the read of the body, the decoding, or the lookup in a reply that
    lacks the content-block shape), reported on standard output first.  A
    value is therefore never returned for a failed call. *)
Theorem send_returns_text_or_reraises (this : self) (messages : list pyval)
        (system : option string) (max_tokens : Z) (w : world B event) :
  let run := send_message this messages system max_tokens w in
  let evs := events_of w (snd run) in
  match fst run with
  | Returned text =>
      (forall ev, In ev evs -> raised_by ev = None) /\
      exists raw response_body,
        delivered evs raw /\
        json_loads raw = Returned response_body /\
        first_block_text response_body = Some text
  | Raised e =>
      last evs (EvPrint "") = EvPrint ("❌ Claude API error: " ++ exn_str e) /\
      ((exists ev, In ev evs /\ raised_by ev = Some e) \/
       (exists raw, delivered evs raw /\ json_loads raw = Raised e) \/
       (exists raw response_body,
           delivered evs raw /\
           json_loads raw = Returned response_body /\
           first_block_text response_body = None /\
           In (exn_class e) ["KeyError"; "IndexError"; "TypeError"]))
  end.
Proof.
  pose proof (send_message_run this messages system max_tokens w) as H.
  cbv zeta in *.
  destruct (invoke_model _ _ _ (driver w)) as [[resp|e] d].
  2: { destruct H as [-> ->]. split; [reflexivity|]. left.
       eexists. split; [left; reflexivity|reflexivity]. }
  destruct (body_read resp d) as [[raw|e] d'].
  2: { destruct H as [-> ->]. split; [reflexivity|]. left.
       eexists. split; [right; left; reflexivity|reflexivity]. }
  assert (Hdelivered :
            forall rest,
              delivered
                (EvInvokeModel (client this) (model_id this)
                   (json_dumps (PDict (request_body messages system max_tokens)))
                   (Returned resp)
                 :: EvRead resp (Returned raw) :: rest) raw).
  { intros rest. eexists _, _, _, resp.
    split; [left; reflexivity|right; left; reflexivity]. }
  destruct (json_loads raw) as [response_body|e] eqn:Hloads.
  2: { destruct H as [-> ->]. split; [reflexivity|]. right. left.
       exists raw. split; [apply Hdelivered|exact Hloads]. }
  pose proof (text_of_shape response_body) as Hshape.
  destruct (text_of response_body) as [text|e]; destruct H as [-> ->].
  - split.
    + intros ev [<-|[<-|[]]]; reflexivity.
    + exists raw, response_body. split; [apply Hdelivered|]. split; auto.
  - split; [reflexivity|]. right. right. destruct Hshape as [Hnone Hclass].
    exists raw, response_body. split; [apply Hdelivered|]. repeat split; auto.
Qed.

(** C8: [chat] with a user text and an optional system instruction is
    [send_message] applied to the single-turn sequence holding that text under
    role user, with the same system instruction and the default token bound;
    the message sequence of the envelope it submits is that sequence, which is
    never empty. *)
Theorem chat_is_single_turn_send (this : self) (user_text : string)
        (system : option string) :
  chat this user_text system
    = send_message this (single_turn user_text) system 1024 /\
  single_turn user_text <> [] /\
  dict_get (request_body (single_turn user_text) system 1024) "messages"
    = Some (PList (single_turn user_text)) /\
  forall w : world B event,
    submitted (events_of w (snd (chat this user_text system w)))
    = [(model_id this,
        json_dumps (PDict (request_body (single_turn user_text) system 1024)))].
Proof.
  split; [reflexivity|]. split; [discriminate|]. split.
  - unfold request_body. destruct (truthy_str system); reflexivity.
  - intros w. apply (send_submits this (single_turn user_text) system 1024 w).
Qed.

(** *** Further properties of the relay client *)

(** What [send_message] does with a reply that was delivered and decoded:
    without a [content] key it raises [KeyError], on an empty [content] list
    [IndexError], on a first block without [text] [KeyError], on a reply that
    is a list and not an object [TypeError]; and when the first block has a
    [text], it returns that value, whatever it is, and looks at no other
    block. *)
Theorem reply_shape_errors (this : self) (messages : list pyval)
        (system : option string) (max_tokens : Z) (w : world B event)
        (resp : response) (d d' : B) (raw : string) (response_body : pyval) :
  invoke_model (client this) (model_id this)
               (json_dumps (PDict (request_body messages system max_tokens)))
               (driver w)
  = (Returned resp, d) ->
  body_read resp d = (Returned raw, d') ->
  json_loads raw = Returned response_body ->
  let result := fst (send_message this messages system max_tokens w) in
  (forall fields,
      response_body = PDict fields -> dict_get fields "content" = None ->
      result = Raised (KeyError "'content'")) /\
  (forall fields,
      response_body = PDict fields ->
      dict_get fields "content" = Some (PList []) ->
      result = Raised (IndexError "list index out of range")) /\
  (forall fields block rest,
      response_body = PDict fields ->
      dict_get fields "content" = Some (PList (PDict block :: rest)) ->
      result = match dict_get block "text" with
               | Some text => Returned text
               | None => Raised (KeyError "'text'")
               end) /\
  (forall l,
      response_body = PList l ->
      result
      = Raised (TypeError "list indices must be integers or slices, not str")).
Proof.
  intros Hinvoke Hread Hloads.
  pose proof (send_message_run this messages system max_tokens w) as H.
  cbv zeta in *. rewrite Hinvoke, Hread, Hloads in H.
  repeat split.
  - intros fields -> Hcontent. unfold text_of in H. simpl in H.
    rewrite Hcontent in H. now destruct H.
  - intros fields -> Hcontent. unfold text_of in H. simpl in H.
    rewrite Hcontent in H. now destruct H.
  - intros fields block rest -> Hcontent. unfold text_of in H.
    unfold subscript at 1 in H. rewrite Hcontent in H.
    unfold subscript at 1 in H. rewrite seq_index_first in H.
    simpl in H. destruct (dict_get block "text"); now destruct H.
  - intros l ->. now destruct H.
Qed.

End Facts.

(** *** The properties on the scripted transport *)

(** C6 as stated fails for the empty system instruction: it is given, and
    the envelope has no [system] field. *)
Lemma empty_system_omitted :
  ~ envelope_contract is_given (single_turn "ping") (Some "") 1024.
Proof.
  intros (_ & _ & _ & Hsystem & _). vm_compute in Hsystem. discriminate.
Qed.

(** C7 as stated fails when the transport call is throttled: what reaches
    the caller is botocore's [ClientError]. *)
Lemma throttled_raises_client_error :
  ~ relay_contract butler (single_turn "ping") None 1024 throttled.
Proof.
  intros H. vm_compute in H. discriminate.
Qed.

Lemma reply_shape_errors_witness :
  fst (send_message butler (single_turn "ping") None 1024 misshapen)
  = Raised (KeyError "'content'").
Proof.
  eapply (reply_shape_errors butler (single_turn "ping") None 1024 misshapen);
    try reflexivity.
Defined.

Example chat_answers :
  fst (chat butler "ping" (Some "Reply with OK") answering)
  = Returned (PStr "Butler online").
Proof. reflexivity. Qed.

Example chat_on_misshapen_reply :
  fst (chat butler "ping" None misshapen) = Raised (KeyError "'content'").
Proof. reflexivity. Qed.

Example envelope_of_ping :
  request_body (single_turn "ping") (Some "Reply with OK") 1024
  = [("anthropic_version", PStr "bedrock-2023-05-31");
     ("max_tokens", PInt 1024);
     ("messages", PList [PDict [("role", PStr "user"); ("content", PStr "ping")]]);
     ("system", PStr "Reply with OK")].
Proof. reflexivity. Qed.

End RelayProofs.

(** * Properties of the agent *)

Module ButlerProofs.
Import Butler.

Lemma relay_events_app (l1 l2 : list event) :
  relay_events (l1 ++ l2) = (relay_events l1 ++ relay_events l2)%list.
Proof.
  induction l1 as [|[| | |] l1 IH]; simpl; auto. now rewrite IH.
Qed.

Lemma store_events_app (l1 l2 : list event) :
  store_events (l1 ++ l2) = (store_events l1 ++ store_events l2)%list.
Proof.
  induction l1 as [|[| | |] l1 IH]; simpl; auto. now rewrite IH.
Qed.

Lemma relay_events_relay (l : list ClaudeClient.event) :
  relay_events (map Relay l) = l.
Proof. induction l as [|ev l IH]; simpl; auto. now rewrite IH. Qed.

Lemma relay_events_store (l : list Database.event) :
  relay_events (map Store l) = [].
Proof. induction l as [|ev l IH]; simpl; auto. Qed.

Lemma store_events_store (l : list Database.event) :
  store_events (map Store l) = l.
Proof. induction l as [|ev l IH]; simpl; auto. now rewrite IH. Qed.

Lemma store_events_relay (l : list ClaudeClient.event) :
  store_events (map Relay l) = [].
Proof. induction l as [|ev l IH]; simpl; auto. Qed.

Section Facts.
Context {D B : Type} `{PG : Database.Psycopg2 D}
        `{BR : ClaudeClient.Bedrock B} `{JS : ClaudeClient.Json}
        `{PY : Builtins}.

Lemma chat_submits (this : agent) (user_input : string)
      (w : world B ClaudeClient.event) :
  trace w = [] ->
  ClaudeClient.submitted
    (trace (snd (ClaudeClient.chat (claude this) user_input
                                   (Some (system_prompt this)) w)))
  = [envelope this user_input].
Proof.
  intros Hnil.
  pose proof (RelayProofs.send_submits
                (claude this) (ClaudeClient.single_turn user_input)
                (Some (system_prompt this)) 1024 w) as H.
  unfold ClaudeClient.events_of in H. rewrite Hnil in H. exact H.
Qed.

Lemma process_request_run (this : agent) (user_input : string)
      (w : world (D * B) event) :
  let run :=
    ClaudeClient.chat (claude this) user_input (Some (system_prompt this))
                      (World (environ w) (snd (driver w)) []) in
  process_request this user_input w
  = (Returned match fst run with
              | Returned text => text
              | Raised e => PStr ("❌ Error processing request: " ++ exn_str e)
              end,
     World (environ w) (fst (driver w), driver (snd run))
           (trace w ++ map Relay (trace (snd run)))).
Proof.
  unfold process_request, try_except, in_relay. cbv zeta.
  destruct (ClaudeClient.chat _ _ _ _) as [[text|e] w']; reflexivity.
Qed.

(** [process_request] never raises: it answers with the reply of the chat
    call, or, when that call raised, with a line that carries the text of the
    exception.  Either way it has submitted one envelope, for the user input
    as a single turn under the agent's system prompt, and has not touched the
    store. *)
Theorem process_request_never_raises (this : agent) (user_input : string)
        (w : world (D * B) event) :
  let run := process_request this user_input w in
  let evs := new_events (trace w) (trace (snd run)) in
  fst run
  = Returned
      match fst (ClaudeClient.chat (claude this) user_input
                   (Some (system_prompt this))
                   (World (environ w) (snd (driver w)) [])) with
      | Returned text => text
      | Raised e => PStr ("❌ Error processing request: " ++ exn_str e)
      end /\
  ClaudeClient.submitted (relay_events evs) = [envelope this user_input] /\
  store_events evs = [] /\
  fst (driver (snd run)) = fst (driver w).
Proof.
  cbv zeta. rewrite process_request_run. simpl.
  rewrite new_events_app, relay_events_relay, store_events_relay.
  repeat split. now apply chat_submits.
Qed.

Lemma run_health_check_run (this : agent) (w : world (D * B) event) :
  let db := database_check this w in
  let cl := claude_check this w in
  let start := Out "🔍 Running Butler health check..." in
  let st := map Store (trace (Database.outside (snd db))) in
  run_health_check this w
  = match fst db with
    | Raised e =>
        (Returned false,
         World (environ w)
               (driver (Database.outside (snd db)), snd (driver w))
               (trace w
                  ++ start :: st
                  ++ [Out ("❌ Database check failed: " ++ exn_str e)]))
    | Returned _ =>
        match fst cl with
        | Raised e =>
            (Returned false,
             World (environ w)
                   (driver (Database.outside (snd db)), driver (snd cl))
                   (trace w
                      ++ start :: st
                      ++ map Relay (trace (snd cl))
                      ++ [Out ("❌ Claude API check failed: " ++ exn_str e)]))
        | Returned response =>
            (Returned true,
             World (environ w)
                   (driver (Database.outside (snd db)), driver (snd cl))
                   (trace w
                      ++ start :: st
                      ++ map Relay (trace (snd cl))
                      ++ [Out ("✅ Claude API: " ++ py_str response);
                          Out "✅ All systems operational!"]))
        end
    end.
Proof.
  unfold run_health_check, database_check, claude_check, bind, try_except,
    in_store, in_relay, print, modify, log, ret.
  cbv zeta. simpl.
  destruct (Database.scoped _ _ _) as [[[]|e] s']; simpl.
  - destruct (ClaudeClient.chat _ _ _ _) as [[response|e] w']; simpl;
      do 2 f_equal; rewrite <- !app_assoc; reflexivity.
  - do 2 f_equal. rewrite <- !app_assoc. reflexivity.
Qed.

(** The health check never raises: it answers [True] exactly when the
    database block and the chat call both end without an exception. *)
Theorem health_check_verdict (this : agent) (w : world (D * B) event) :
  fst (run_health_check this w)
  = Returned (is_returned (fst (database_check this w))
              && is_returned (fst (claude_check this w))).
Proof.
  rewrite run_health_check_run. cbv zeta.
  destruct (fst (database_check this w)) as [[]|e]; [|reflexivity].
  destruct (fst (claude_check this w)); reflexivity.
Qed.

(** When the database block fails, the health check stops there: the answer
    is [False], the last line printed carries the text of the exception, and
    the relay is not contacted. *)
Theorem database_failure_stops_check (this : agent) (w : world (D * B) event)
        (e : exn) :
  fst (database_check this w) = Raised e ->
  let run := run_health_check this w in
  let evs := new_events (trace w) (trace (snd run)) in
  fst run = Returned false /\
  last evs (Out "") = Out ("❌ Database check failed: " ++ exn_str e) /\
  relay_events evs = [] /\
  snd (driver (snd run)) = snd (driver w).
Proof.
  intros Hdb. cbv zeta. rewrite run_health_check_run. cbv zeta. rewrite Hdb.
  simpl. rewrite new_events_app. repeat split.
  - rewrite app_comm_cons. apply last_last.
  - simpl. rewrite relay_events_app, relay_events_store. reflexivity.
Qed.

(** Every way the health check goes, the store comes first: what the process
    did is the opening line, then the whole database block, then the rest,
    and the rest does not touch the store.  The rest holds a contact with the
    relay only if the database block ended without an exception. *)
Theorem store_before_relay (this : agent) (w : world (D * B) event) :
  let run := run_health_check this w in
  let db := database_check this w in
  exists rest,
    new_events (trace w) (trace (snd run))
    = (Out "🔍 Running Butler health check..."
         :: map Store (trace (Database.outside (snd db))) ++ rest)%list /\
    store_events rest = [] /\
    (fst db = Returned tt \/ relay_events rest = []).
Proof.
  cbv zeta. rewrite run_health_check_run. cbv zeta.
  destruct (fst (database_check this w)) as [[]|e].
  - destruct (fst (claude_check this w)) as [response|e]; simpl;
      rewrite new_events_app; eexists; (split; [reflexivity|]);
      rewrite store_events_app, store_events_relay; auto.
  - simpl. rewrite new_events_app. eexists. split; [reflexivity|].
    split; [reflexivity|]. right. reflexivity.
Qed.


#[local] Arguments subscript : simpl never.
#[local] Arguments slice_to : simpl never.

Lemma version_query_extends (s : Database.state D) :
  exists evs,
    trace (Database.outside (snd (version_query s)))
    = (trace (Database.outside s) ++ evs)%list /\
    Database.connection (snd (version_query s)) = Database.connection s /\
    (forall h r, ~ In (Database.EvClose h r) evs) /\
    (fst (version_query s) = Returned tt ->
     In ("SELECT version()", None) (Database.statements evs)).
Proof.
  destruct (StoreProofs.execute_extends "SELECT version()" None s)
    as (evs & Htrace & Hconn & Hnone & Hstmt).
  unfold version_query, bind, lift, Database.print, modify.
  destruct (Database.execute "SELECT version()" None s) as [[rows|e] s2];
    simpl in *.
  2: { exists evs. repeat split; auto. discriminate. }
  specialize (Hstmt rows eq_refl).
  destruct (subscript _ (KInt 0)) as [first|e];
    [|exists evs; repeat split; auto; discriminate].
  destruct (subscript first _) as [version|e];
    [|exists evs; repeat split; auto; discriminate].
  destruct (slice_to version 50) as [shown|e];
    [|exists evs; repeat split; auto; discriminate].
  simpl. rewrite Htrace, <- app_assoc.
  eexists. split; [reflexivity|]. split; [exact Hconn|]. split.
  - intros h r Hin. apply in_app_or in Hin as [Hin|[Hin|[]]];
      [now apply (Hnone h r)|discriminate].
  - intros _. rewrite StoreProofs.statements_app. apply in_or_app. now left.
Qed.

Lemma version_query_passed (tenant : option string)
      (env : string -> option string) (d : D) (s' : Database.state D) :
  Database.scoped tenant version_query (World env d []) = (Returned tt, s') ->
  let tr := trace (Database.outside s') in
  exists args h before,
    hd_error tr = Some (Database.EvConnect args (Returned h)) /\
    In ("SELECT version()", None) (Database.statements tr) /\
    tr = (before ++ [Database.EvClose h (Returned tt);
                     Database.EvPrint "✅ Database connection closed"])%list /\
    forall h' r, ~ In (Database.EvClose h' r) before.
Proof.
  unfold Database.scoped, with_, bind, try_finally, Database.__enter__.
  destruct (Database.connect _) as [[[]|e] s1] eqn:Hconnect; [|discriminate].
  destruct (StoreProofs.connect_passed _ _ _ Hconnect)
    as (args & h & evs1 & Hh & Htr1 & Hnone1).
  destruct (version_query_extends s1) as (evs2 & Htr2 & Hkeep & Hnone2 & Hstmt).
  destruct (version_query s1) as [r s2]. simpl in *.
  rewrite Hh in Hkeep.
  unfold Database.__exit__, Database.close, bind, gets,
    Database.connection_close, Database.call, Database.print, modify,
    Database.log, Database.set_outside.
  rewrite Hkeep. simpl.
  destruct (Database.pg_close h _) as [[[]|e] d']; simpl; [|discriminate].
  intros Hrun. injection Hrun as -> <-. simpl.
  rewrite Htr2, Htr1, <- !app_assoc. simpl.
  exists args, h, (Database.EvConnect args (Returned h) :: evs1 ++ evs2)%list.
  split; [reflexivity|]. split; [|split].
  - rewrite !StoreProofs.statements_app. apply in_or_app. right.
    apply in_or_app. left. now apply Hstmt.
  - simpl. now rewrite <- app_assoc.
  - intros h' r' [Hin|Hin]; [discriminate|].
    apply in_app_or in Hin as [Hin|Hin];
      [now apply (Hnone1 h' r')|now apply (Hnone2 h' r')].
Qed.

(** A health check that answers [True] has opened a connection, run the
    version query on it and closed that connection, successfully and as the
    last thing done to the store, before the relay was contacted. *)
Theorem passed_check_closed_connection (this : agent)
        (w : world (D * B) event) :
  fst (run_health_check this w) = Returned true ->
  let tr := trace (Database.outside (snd (database_check this w))) in
  exists args h before rest,
    hd_error tr = Some (Database.EvConnect args (Returned h)) /\
    In ("SELECT version()", None) (Database.statements tr) /\
    (forall h' r, ~ In (Database.EvClose h' r) before) /\
    relay_events rest <> [] /\
    store_events rest = [] /\
    new_events (trace w) (trace (snd (run_health_check this w)))
    = (Out "🔍 Running Butler health check..."
         :: map Store
              (before ++ [Database.EvClose h (Returned tt);
                          Database.EvPrint "✅ Database connection closed"])
         ++ rest)%list.
Proof.
  intros Htrue. cbv zeta.
  rewrite run_health_check_run in *. cbv zeta in *.
  destruct (database_check this w) as [[[]|e] s'] eqn:Hdb; simpl in *;
    [|discriminate].
  destruct (version_query_passed _ _ _ _ Hdb)
    as (args & h & before & Hhd & Hstmt & Htr & Hnone).
  pose proof (chat_submits this HEALTH_PING
                (World (environ w) (snd (driver w)) []) eq_refl) as Hsub.
  fold (claude_check this w) in Hsub.
  destruct (claude_check this w) as [[response|e] w']; simpl in *;
    [|discriminate].
  rewrite new_events_app.
  exists args, h, before,
    (map Relay (trace w')
       ++ [Out ("✅ Claude API: " ++ py_str response);
           Out "✅ All systems operational!"])%list.
  rewrite <- Htr. repeat split; auto.
  - rewrite relay_events_app, relay_events_relay. simpl. rewrite app_nil_r.
    intros Hnil. rewrite Hnil in Hsub. discriminate.
  - rewrite store_events_app, store_events_relay. reflexivity.
Qed.

Lemma submitted_app (l1 l2 : list ClaudeClient.event) :
  ClaudeClient.submitted (l1 ++ l2)
  = (ClaudeClient.submitted l1 ++ ClaudeClient.submitted l2)%list.
Proof.
  induction l1 as [|ev l1 IH]; [reflexivity|].
  destruct ev; simpl; auto. now rewrite IH.
Qed.

Lemma loop_cons (this : agent) (line : string) (rest : list string)
      (w : world (D * B) event) :
  loop this (line :: rest) w
  = if is_quit (str_strip line) then
      (Returned tt, log (Out "👋 Goodbye!") (log (Prompt "You: ") w))
    else if str_strip line =? "" then loop this rest (log (Prompt "You: ") w)
    else
      match process_request this (str_strip line) (log (Prompt "You: ") w) with
      | (Returned response, w2) =>
          loop this rest
               (log (Out (nl ++ "Butler: " ++ py_str response ++ nl)) w2)
      | (Raised e, w2) => (Raised e, w2)
      end.
Proof.
  simpl. unfold bind, modify, print. simpl.
  destruct (is_quit (str_strip line)); [reflexivity|].
  destruct (str_strip line =? ""); [reflexivity|].
  destruct (process_request this (str_strip line) _) as [[response|e] w2];
    reflexivity.
Qed.

Lemma loop_run (this : agent) (stdin : list string) :
  forall w : world (D * B) event,
  exists evs,
    trace (snd (loop this stdin w)) = (trace w ++ evs)%list /\
    fst (loop this stdin w)
    = (if quits stdin then Returned tt else Raised EOFError) /\
    ClaudeClient.submitted (relay_events evs)
    = map (envelope this) (requests stdin) /\
    store_events evs = [] /\
    fst (driver (snd (loop this stdin w))) = fst (driver w).
Proof.
  induction stdin as [|line rest IH]; intros w.
  - exists [Prompt "You: "]. repeat split.
  - rewrite loop_cons. simpl quits. simpl requests.
    destruct (is_quit (str_strip line)) eqn:Hquit; simpl.
    + exists [Prompt "You: "; Out "👋 Goodbye!"]. simpl.
      rewrite <- app_assoc. repeat split.
    + destruct (str_strip line =? "") eqn:Hblank.
      * destruct (IH (log (Prompt "You: ") w))
          as (evs & Htrace & Hfst & Hsub & Hstore & Hdrv).
        exists (Prompt "You: " :: evs). rewrite Htrace, Hfst, Hdrv. simpl.
        rewrite <- app_assoc. repeat split; auto.
      * rewrite process_request_run. cbv zeta.
        set (run := ClaudeClient.chat _ _ _ _).
        pose proof (chat_submits this (str_strip line)
                      (World (environ (log (Prompt "You: ") w))
                             (snd (driver (log (Prompt "You: ") w))) [])
                      eq_refl) as Hone.
        fold run in Hone.
        match goal with
        | |- context [loop this rest ?w1] =>
            destruct (IH w1) as (evs & Htrace & Hfst & Hsub & Hstore & Hdrv);
            exists (Prompt "You: " :: map Relay (trace (snd run))
                      ++ Out (nl ++ "Butler: "
                                 ++ py_str match fst run with
                                           | Returned text => text
                                           | Raised e =>
                                               PStr ("❌ Error processing request: "
                                                       ++ exn_str e)
                                           end ++ nl) :: evs)%list
        end.
        rewrite Htrace, Hfst, Hdrv. simpl. rewrite <- !app_assoc. simpl.
        split; [reflexivity|]. split; [reflexivity|].
        rewrite relay_events_app, store_events_app, relay_events_relay,
          store_events_relay. simpl.
        rewrite submitted_app, Hone, Hsub, Hstore. repeat split.
Qed.

(** A session asks the model once for every line that is neither blank nor
    a quit word, in order and with the line stripped, up to the first quit
    word; it never touches the store; it returns when a quit word was entered
    and ends with [EOFError] when the input ran out first. *)
Theorem session_requests (this : agent) (stdin : list string)
        (w : world (D * B) event) :
  let run := interactive_mode this stdin w in
  let evs := new_events (trace w) (trace (snd run)) in
  fst run = (if quits stdin then Returned tt else Raised EOFError) /\
  ClaudeClient.submitted (relay_events evs)
  = map (envelope this) (requests stdin) /\
  store_events evs = [] /\
  fst (driver (snd run)) = fst (driver w).
Proof.
  cbv zeta. unfold interactive_mode, bind, print, modify. simpl.
  match goal with
  | |- context [loop this stdin ?w1] =>
      destruct (loop_run this stdin w1)
        as (evs & Htrace & Hfst & Hsub & Hstore & Hdrv)
  end.
  rewrite Htrace, Hfst, Hdrv. simpl. rewrite <- !app_assoc.
  rewrite new_events_app. simpl. auto.
Qed.

Lemma loop_stops_at_quit (this : agent) (before : list string)
      (line : string) (after after' : list string) :
  is_quit (str_strip line) = true ->
  forall w : world (D * B) event,
    loop this (before ++ line :: after) w
    = loop this (before ++ line :: after') w.
Proof.
  intros Hquit. induction before as [|l before IH]; intros w;
    rewrite <- ?app_comm_cons; simpl app; rewrite !loop_cons.
  - now rewrite Hquit.
  - destruct (is_quit (str_strip l)); [reflexivity|].
    destruct (str_strip l =? ""); [apply IH|].
    destruct (process_request this (str_strip l) _) as [[response|e] w1];
      [apply IH|reflexivity].
Qed.

(** Once a quit word has been entered the session is over: whatever lines
    follow it, the session is the same. *)
Theorem quit_ends_session (this : agent) (before : list string)
        (line : string) (after after' : list string)
        (w : world (D * B) event) :
  is_quit (str_strip line) = true ->
  interactive_mode this (before ++ line :: after) w
  = interactive_mode this (before ++ line :: after') w.
Proof.
  intros Hquit. unfold interactive_mode, bind, print, modify. simpl.
  now apply loop_stops_at_quit.
Qed.

(** With [--health-check], [main] never reads standard input and, once the
    agent is built, always ends with [SystemExit]: status 0 when the database
    block and the chat call both ended without an exception, status 1
    otherwise.  When building the agent raises, that exception is what
    [main] raises. *)
Theorem health_check_mode_exits (args : arguments) (stdin : list string)
        (w : world (D * B) event) :
  health_check args = true ->
  main args stdin w = main args [] w /\
  (forall this w1,
      __init__ (arg_tenant_id args) w = (Returned this, w1) ->
      fst (main args stdin w)
      = Raised (SystemExit
                  (if is_returned (fst (database_check this w1))
                      && is_returned (fst (claude_check this w1))
                   then 0 else 1))) /\
  (forall e w1,
      __init__ (arg_tenant_id args) w = (Raised e, w1) ->
      main args stdin w = (Raised e, w1)).
Proof.
  intros Hmode. unfold main. rewrite Hmode. split; [reflexivity|]. split.
  - intros this w1 Hinit. unfold bind at 1. rewrite Hinit.
    unfold bind. rewrite run_health_check_run. cbv zeta.
    destruct (fst (database_check this w1)) as [[]|e]; [|reflexivity].
    destruct (fst (claude_check this w1)); reflexivity.
  - intros e w1 Hinit. unfold bind at 1. now rewrite Hinit.
Qed.

End Facts.

(** *** The properties on the test process *)

#[local] Existing Instance Database.mock_psycopg2.
#[local] Existing Instance ClaudeClient.mock_bedrock.
#[local] Existing Instance ClaudeClient.test_json.

Lemma database_failure_stops_check_witness :
  fst (run_health_check test_agent dropping_process) = Returned false /\
  relay_events (trace (snd (run_health_check test_agent dropping_process))) = [].
Proof.
  assert (Hdb : fst (database_check test_agent dropping_process)
                = Raised (Exn "OperationalError"
                              "server closed the connection unexpectedly"))
    by (vm_compute; reflexivity).
  destruct (database_failure_stops_check test_agent dropping_process _ Hdb)
    as (Hfalse & _ & Hrelay & _).
  split; [exact Hfalse|exact Hrelay].
Defined.

Lemma passed_check_closed_connection_witness :
  exists args before rest,
    hd_error (trace (Database.outside (snd (database_check test_agent test_process))))
    = Some (Database.EvConnect args (Returned 7)) /\
    new_events (trace test_process)
               (trace (snd (run_health_check test_agent test_process)))
    = (Out "🔍 Running Butler health check..."
         :: map Store
              (before ++ [Database.EvClose 7 (Returned tt);
                          Database.EvPrint "✅ Database connection closed"])
         ++ rest)%list.
Proof.
  assert (Hpassed : fst (run_health_check test_agent test_process)
                    = Returned true) by (vm_compute; reflexivity).
  destruct (passed_check_closed_connection test_agent test_process Hpassed)
    as (args & h & before & rest & Hhd & _ & _ & _ & _ & Htrace).
  assert (Hh : h = 7).
  { pose proof Hhd as Hhd'. vm_compute in Hhd'. now injection Hhd' as _ <-. }
  subst h. exists args, before, rest. split; [exact Hhd|exact Htrace].
Defined.


Lemma quit_ends_session_witness :
  interactive_mode test_agent ["  hello "; " QUIT  "; "ignored"] test_process
  = interactive_mode test_agent ["  hello "; " QUIT  "] test_process.
Proof.
  apply (quit_ends_session test_agent ["  hello "] " QUIT  " ["ignored"] []
                           test_process).
  reflexivity.
Defined.

Lemma health_check_mode_exits_witness :
  fst (main (Arguments_ true "customer-001") ["never read"] test_process)
  = Raised (SystemExit 0).
Proof.
  destruct (health_check_mode_exits (Arguments_ true "customer-001")
                                    ["never read"] test_process eq_refl)
    as (_ & Hexit & _).
  assert (Hinit : __init__ "customer-001" test_process
                  = (Returned test_agent,
                     snd (__init__ "customer-001" test_process)))
    by (vm_compute; reflexivity).
  rewrite (Hexit _ _ Hinit). vm_compute. reflexivity.
Defined.

Example session_of_three_lines :
  let run := interactive_mode test_agent ["  hello "; ""; "q"; "late"]
                              test_process in
  fst run = Returned tt /\
  requests ["  hello "; ""; "q"; "late"] = ["hello"] /\
  last (trace (snd run)) (Out "") = Out "👋 Goodbye!".
Proof. vm_compute. auto. Qed.

Example session_without_quit :
  fst (interactive_mode test_agent ["hello"] throttled_process)
  = Raised EOFError.
Proof. reflexivity. Qed.

Example request_on_throttled_relay :
  fst (process_request test_agent "hello" throttled_process)
  = Returned (PStr "❌ Error processing request: ThrottlingException").
Proof. reflexivity. Qed.

End ButlerProofs.
